(** * monitor.py: the event-driven conversion pipeline

    A shallow embedding of [src/monitor.py]: the creation-event filter
    ([FileCreationHandler.on_created]), the two-stage conversion job
    ([FileCreationHandler.process_new_file]), the watch set-up
    ([monitor_directory]) and the start-up block ([__main__]).

    Python [str] values are Rocq strings read as sequences of code points
    below 256.  The file system, the log, the standard input and the calls
    made to the outside (process spawning, pypandoc, watchdog, [os]) are
    threaded through an explicit state; what the outside answers is given
    by an environment record, so every statement quantifies over all
    answers the collaborators can give.  An answer is a value or an
    exception: the runs in which a collaborator never answers (a
    stage-1 process that does not exit, [subprocess.run] being called
    without a timeout) are not among the runs described, and nothing
    below says that a job ends. *)

From Stdlib Require Import ZArith Lia Bool List Ascii String.
From stdpp Require Import base decidable gmap strings.
Import ListNotations.

Local Open Scope string_scope.
Local Open Scope Z_scope.

(** ** Python string operations *)

Module Py.

(** [c.lower()] on one code point below 256: [A-Z] and the Latin-1
    capitals 0xC0..0xDE (0xD7, the multiplication sign, apart). *)
Definition lower_char (c : ascii) : ascii :=
  let n := N_of_ascii c in
  if ((65 <=? n) && (n <=? 90))%N then ascii_of_N (n + 32)
  else if ((192 <=? n) && (n <=? 222) && negb (n =? 215))%N
       then ascii_of_N (n + 32)
  else c.

(** [s.lower()] *)
Fixpoint lower (s : string) : string :=
  match s with
  | EmptyString => EmptyString
  | String c s' => String (lower_char c) (lower s')
  end.

(** [s.startswith(p)] *)
Fixpoint startswith (s p : string) : bool :=
  match p, s with
  | EmptyString, _ => true
  | String _ _, EmptyString => false
  | String b p', String a s' => Ascii.eqb a b && startswith s' p'
  end.

(** [s.endswith(suf)]: some tail of [s] is [suf]. *)
Fixpoint endswith (s suf : string) : bool :=
  String.eqb s suf ||
  match s with
  | EmptyString => false
  | String _ s' => endswith s' suf
  end.

(** [s[:n]] and [s[n:]] for [n >= 0]. *)
Fixpoint take (n : nat) (s : string) : string :=
  match n, s with
  | S n', String c s' => String c (take n' s')
  | _, _ => EmptyString
  end.

Fixpoint drop (n : nat) (s : string) : string :=
  match n, s with
  | S n', String _ s' => drop n' s'
  | _, _ => s
  end.

(** [s.rfind(c)] for a one-character [c]: the index of the last
    occurrence, [-1] when there is none. *)
Fixpoint rfind_from (c : ascii) (s : string) (i acc : Z) : Z :=
  match s with
  | EmptyString => acc
  | String a s' => rfind_from c s' (i + 1) (if Ascii.eqb a c then i else acc)
  end.

Definition rfind (s : string) (c : ascii) : Z := rfind_from c s 0 (-1).

(** [s.rstrip(c)] for a one-character [c]. *)
Fixpoint rstrip_char (c : ascii) (s : string) : string :=
  match s with
  | EmptyString => EmptyString
  | String a s' =>
      match rstrip_char c s' with
      | EmptyString => if Ascii.eqb a c then EmptyString else String a EmptyString
      | r => String a r
      end
  end.

(** [s == c * len(s)] *)
Fixpoint all_char (c : ascii) (s : string) : bool :=
  match s with
  | EmptyString => true
  | String a s' => Ascii.eqb a c && all_char c s'
  end.

(** [str.isspace] on one code point below 256. *)
Definition is_space (c : ascii) : bool :=
  let n := N_of_ascii c in
  (((9 <=? n) && (n <=? 13)) || ((28 <=? n) && (n <=? 32))
   || (n =? 133) || (n =? 160))%N.

Fixpoint lstrip (s : string) : string :=
  match s with
  | EmptyString => EmptyString
  | String a s' => if is_space a then lstrip s' else s
  end.

Fixpoint rstrip (s : string) : string :=
  match s with
  | EmptyString => EmptyString
  | String a s' =>
      match rstrip s' with
      | EmptyString => if is_space a then EmptyString else String a EmptyString
      | r => String a r
      end
  end.

(** [s.strip()] *)
Definition strip (s : string) : string := rstrip (lstrip s).

(** Truth value of a string: [if s:] *)
Definition truthy (s : string) : bool := negb (String.eqb s "").

(** [c in s] for a one-character [c]. *)
Fixpoint contains (c : ascii) (s : string) : bool :=
  match s with
  | EmptyString => false
  | String a s' => Ascii.eqb a c || contains c s'
  end.

End Py.

(** ** [os.path], the POSIX flavour ([posixpath], separator [/]) *)

Module OsPath.

Definition sep : ascii := "/"%char.
Definition extsep : ascii := "."%char.

(** [basename(p)]: [i = p.rfind(sep) + 1; return p[i:]] *)
Definition basename (p : string) : string :=
  let i := Py.rfind p sep + 1 in
  Py.drop (Z.to_nat i) p.

(** [dirname(p)]: the head up to the last separator, its trailing
    separators stripped unless it consists of separators only. *)
Definition dirname (p : string) : string :=
  let i := Py.rfind p sep + 1 in
  let head := Py.take (Z.to_nat i) p in
  if Py.truthy head && negb (Py.all_char sep head)
  then Py.rstrip_char sep head
  else head.

(** The loop of [genericpath._splitext] that skips leading dots: is
    there a character other than the dot in [p[lo:hi]]? *)
Fixpoint has_non_dot (s : string) : bool :=
  match s with
  | EmptyString => false
  | String a s' => negb (Ascii.eqb a extsep) || has_non_dot s'
  end.

(** [splitext(p)] *)
Definition splitext (p : string) : string * string :=
  let sepIndex := Py.rfind p sep in
  let dotIndex := Py.rfind p extsep in
  if (dotIndex >? sepIndex) &&
     has_non_dot (Py.take (Z.to_nat (dotIndex - (sepIndex + 1)))
                          (Py.drop (Z.to_nat (sepIndex + 1)) p))
  then (Py.take (Z.to_nat dotIndex) p, Py.drop (Z.to_nat dotIndex) p)
  else (p, EmptyString).

(** [join(a, b)] *)
Definition join (a b : string) : string :=
  if Py.startswith b (String sep EmptyString) then b
  else if negb (Py.truthy a) || Py.endswith a (String sep EmptyString)
       then a ++ b
  else a ++ String sep EmptyString ++ b.

End OsPath.

(** ** Exceptions, the world and the environment *)

(** The exception classes the handlers of [monitor.py] tell apart.
    [OSError] stands for itself and its subclasses ([FileNotFoundError],
    [PermissionError], ...); [OtherException] for any other subclass of
    [Exception]. *)
Inductive exn_class :=
| CalledProcessError
| OSError
| EOFError
| OtherException
| KeyboardInterrupt
| SystemExit (code : Z).

Record exn := { exn_cls : exn_class; exn_str : string }.

(** [except Exception] *)
Definition is_Exception (e : exn) : bool :=
  match exn_cls e with
  | KeyboardInterrupt | SystemExit _ => false
  | _ => true
  end.

(** [except subprocess.CalledProcessError] *)
Definition is_CalledProcessError (e : exn) : bool :=
  match exn_cls e with CalledProcessError => true | _ => false end.

(** [except OSError] *)
Definition is_OSError (e : exn) : bool :=
  match exn_cls e with OSError => true | _ => false end.

(** [except KeyboardInterrupt] *)
Definition is_KeyboardInterrupt (e : exn) : bool :=
  match exn_cls e with KeyboardInterrupt => true | _ => false end.

Inductive level := LvlDebug | LvlInfo | LvlError.

(** The calls that leave the process or touch the file system. *)
Inductive call :=
| NamedTemporaryFile
| SubprocessRun (argv : list string)
| PathExists (p : string)
| Makedirs (p : string)
| ConvertFile (source fmt outputfile : string)
| Remove (p : string)
| Schedule (path : string)
| ObserverStart
| ObserverStop
| ObserverJoin
| Input (prompt : string)
| CleanupOldLogs.

(** [subprocess.CompletedProcess] *)
Record CompletedProcess := {
  returncode : Z;
  stdout : string;
  stderr : string
}.

(** What a call to [pypandoc.convert_file] does: it returns a string or
    raises, and it has or has not left a file at [outputfile]. *)
Record Conversion := {
  conv_result : string + exn;
  conv_wrote : bool
}.

(** The answers of the collaborators. *)
Record Env := {
  env_tempfile : string + exn;
  env_run : list string -> CompletedProcess + exn;
  env_makedirs : string -> option exn;
  env_convert : string -> string -> string -> Conversion;
  env_remove : string -> option exn;
  env_schedule : string -> option exn;
  env_start : option exn;
  env_interrupt : bool
}.

(** The state threaded through a run: the paths that exist, the log
    records and the calls in the order they were made, the roots the
    observer watches, and the lines still to be read from standard
    input. *)
Record World := {
  fs : gset string;
  log : list (level * string);
  calls : list call;
  watches : list string;
  stdin : list string
}.

Definition init_world (files : gset string) (input : list string) : World :=
  {| fs := files; log := []; calls := []; watches := []; stdin := input |}.

Definition set_fs (f : gset string -> gset string) (w : World) : World :=
  {| fs := f (fs w); log := log w; calls := calls w;
     watches := watches w; stdin := stdin w |}.

Definition add_log (l : level) (m : string) (w : World) : World :=
  {| fs := fs w; log := log w ++ [(l, m)]; calls := calls w;
     watches := watches w; stdin := stdin w |}.

Definition add_call (c : call) (w : World) : World :=
  {| fs := fs w; log := log w; calls := calls w ++ [c];
     watches := watches w; stdin := stdin w |}.

Definition add_watch (p : string) (w : World) : World :=
  {| fs := fs w; log := log w; calls := calls w;
     watches := watches w ++ [p]; stdin := stdin w |}.

Definition set_stdin (l : list string) (w : World) : World :=
  {| fs := fs w; log := log w; calls := calls w;
     watches := watches w; stdin := l |}.

(** ** A state and exception monad *)

Inductive outcome (A : Type) :=
| Ret (a : A)
| Raise (e : exn)
| Hang.
Arguments Ret {A} a.
Arguments Raise {A} e.
Arguments Hang {A}.

Definition M (A : Type) : Type := World -> outcome A * World.

Definition ret {A} (a : A) : M A := fun w => (Ret a, w).

Definition raise {A} (e : exn) : M A := fun w => (Raise e, w).

Definition bind {A B} (m : M A) (k : A -> M B) : M B :=
  fun w =>
    match m w with
    | (Ret a, w') => k a w'
    | (Raise e, w') => (Raise e, w')
    | (Hang, w') => (Hang, w')
    end.

(** [try: body  except <class> as e: handler e] *)
Definition try_except {A} (body : M A) (catches : exn -> bool)
    (handler : exn -> M A) : M A :=
  fun w =>
    match body w with
    | (Raise e, w') => if catches e then handler e w' else (Raise e, w')
    | r => r
    end.

Declare Scope py_scope.
Delimit Scope py_scope with py.
Notation "x <- m ;; k" := (bind m (fun x => k))
  (at level 100, m at next level, right associativity) : py_scope.
Notation "m ;; k" := (bind m (fun _ => k))
  (at level 100, right associativity) : py_scope.
Local Open Scope py_scope.

Definition record_call (c : call) : M unit := fun w => (Ret tt, add_call c w).

Definition logger (l : level) (m : string) : M unit :=
  fun w => (Ret tt, add_log l m w).

Definition logger_debug := logger LvlDebug.
Definition logger_info := logger LvlInfo.
Definition logger_error := logger LvlError.

(** Whether a statement falls through to the next one or leaves the
    function by [return]. *)
Inductive flow := FallThrough | Returned.

(** A watchdog creation event. *)
Record FileEvent := {
  src_path : string;
  is_directory : bool
}.

(** ** The collaborators, as calls answered by the environment *)

Section Program.

Variable env : Env.

(** [tempfile.NamedTemporaryFile(delete=False, suffix='.md')]: the file
    is created on disk and, with [delete=False], stays there when the
    [with] block closes it. *)
Definition named_temporary_file : M string :=
  record_call NamedTemporaryFile;;
  match env_tempfile env with
  | inl name => fun w => (Ret name, set_fs (fun s => s ∪ {[name]}) w)
  | inr e => raise e
  end.

(** [subprocess.run(argv, capture_output=True, text=True, ...)].  No
    [check=True] is passed: a process that ran is returned whatever
    its exit status. *)
Definition subprocess_run (argv : list string) : M CompletedProcess :=
  record_call (SubprocessRun argv);;
  match env_run env argv with
  | inl result => ret result
  | inr e => raise e
  end.

(** [os.path.exists(p)] *)
Definition path_exists (p : string) : M bool :=
  record_call (PathExists p);;
  fun w => (Ret (bool_decide (p ∈ fs w)), w).

(** The directory [d] and the directories above it. *)
Fixpoint ancestors (fuel : nat) (d : string) : gset string :=
  match fuel with
  | O => ∅
  | S fuel' =>
      if Py.truthy d then {[d]} ∪ ancestors fuel' (OsPath.dirname d) else ∅
  end.

(** [os.makedirs(d)]: creates [d] and its missing ancestors. *)
Definition makedirs (d : string) : M unit :=
  record_call (Makedirs d);;
  match env_makedirs env d with
  | None => fun w => (Ret tt, set_fs (fun s => s ∪ ancestors (String.length d) d) w)
  | Some e => raise e
  end.

(** [pypandoc.convert_file(source, fmt, outputfile=outputfile)] *)
Definition convert_file (source fmt outputfile : string) : M string :=
  record_call (ConvertFile source fmt outputfile);;
  let c := env_convert env source fmt outputfile in
  (fun w => (Ret tt, if conv_wrote c
                     then set_fs (fun s => s ∪ {[outputfile]}) w else w));;
  match conv_result c with
  | inl output => ret output
  | inr e => raise e
  end.

(** [os.remove(p)] *)
Definition os_remove (p : string) : M unit :=
  record_call (Remove p);;
  match env_remove env p with
  | None => fun w => (Ret tt, set_fs (fun s => s ∖ {[p]}) w)
  | Some e => raise e
  end.

(** ** [FileCreationHandler.process_new_file] *)

(** Line 101: the command line handed to PowerShell. *)
Definition pf_format_command (file_path md_file_path : string) : string :=
  "pf-format -i '" ++ file_path ++ "' -f md -o '" ++ md_file_path ++ "'".

(** Lines 100-111: stage 1, the external converter. *)
Definition run_pf_format (file_path md_filename md_file_path : string) : M flow :=
  let command := pf_format_command file_path md_file_path in
  logger_debug ("Running command: " ++ command);;
  try_except
    (result <- subprocess_run ["powershell"; "-command"; command];;
     logger_info ("Command output: " ++ stdout result);;
     (if Py.truthy (stderr result)
      then logger_error ("Command errors: " ++ stderr result)
      else ret tt);;
     logger_info ("Processing '" ++ md_filename ++ "' complete.");;
     ret FallThrough)
    is_CalledProcessError
    (fun e =>
       logger_error ("Error while running pf-format: " ++ exn_str e);;
       ret Returned).

(** Lines 115-116: the path of the final document. *)
Definition docx_path (directory_path file_path : string) : string :=
  let docx_filename := fst (OsPath.splitext file_path) ++ ".docx" in
  OsPath.join directory_path docx_filename.

(** Lines 118-126: the output directory. *)
Definition ensure_directory (docx_file_path : string) : M flow :=
  let docx_directory := OsPath.dirname docx_file_path in
  try_except
    (present <- path_exists docx_directory;;
     (if negb present
      then makedirs docx_directory;;
           logger_info ("Created missing directory: " ++ docx_directory)
      else ret tt);;
     ret FallThrough)
    is_OSError
    (fun e =>
       logger_error ("Error creating directory " ++ docx_directory ++ ": "
                     ++ exn_str e);;
       ret Returned).

(** Lines 128-137: stage 2, the in-process converter. *)
Definition run_pandoc (md_file_path docx_file_path : string) : M flow :=
  try_except
    (output <- convert_file md_file_path "docx" docx_file_path;;
     (if String.eqb output ""
      then logger_info ("Conversion to DOCX successful: " ++ docx_file_path)
      else logger_error ("Error in conversion: " ++ output));;
     ret FallThrough)
    is_Exception
    (fun e =>
       logger_error ("Error during conversion: " ++ exn_str e);;
       ret Returned).

(** Lines 139-144: removal of the temporary file. *)
Definition delete_temporary (md_file_path : string) : M unit :=
  try_except
    (os_remove md_file_path;;
     logger_info ("Temporary .md file deleted: " ++ md_file_path))
    is_OSError
    (fun e => logger_error ("Error deleting temporary .md file: " ++ exn_str e)).

Definition process_new_file
    (directory_path file_path md_filename md_file_path : string) : M unit :=
  logger_info ("Starting processing of file: " ++ file_path);;
  f1 <- run_pf_format file_path md_filename md_file_path;;
  match f1 with
  | Returned => ret tt
  | FallThrough =>
      logger_info ("Converting MD file to DOCX for: " ++ md_filename);;
      let docx_file_path := docx_path directory_path file_path in
      f2 <- ensure_directory docx_file_path;;
      match f2 with
      | Returned => ret tt
      | FallThrough =>
          f3 <- run_pandoc md_file_path docx_file_path;;
          match f3 with
          | Returned => ret tt
          | FallThrough =>
              delete_temporary md_file_path;;
              logger_info "Monitoring folder..."
          end
      end
  end.

(** ** [FileCreationHandler.on_created] *)

(** Lines 80-95: what follows the exclusion of [.docx] names. *)
Definition handle_candidate (file_path filename directory_path : string) : M unit :=
  logger_debug ("File created: " ++ filename ++ " in directory: " ++ directory_path);;
  if Py.endswith (Py.lower filename) ".xml" && Py.startswith filename "config-"
  then
    logger_info ("Processing new XML file: " ++ filename);;
    try_except
      (md_file_path <- named_temporary_file;;
       let md_filename := OsPath.basename md_file_path in
       logger_info ("Temporary .md file created: " ++ md_file_path);;
       process_new_file directory_path file_path md_filename md_file_path)
      is_Exception
      (fun e => logger_error ("Error while creating temporary .md file: " ++ exn_str e))
  else ret tt.

Definition on_created (event : FileEvent) : M unit :=
  logger_debug ("New file detected: " ++ src_path event);;
  if negb (is_directory event) then
    let file_path := src_path event in
    let filename := OsPath.basename file_path in
    let directory_path := OsPath.dirname file_path in
    if Py.endswith (Py.lower filename) ".docx" then ret tt
    else handle_candidate file_path filename directory_path
  else ret tt.

(** The handler with the exclusion of [.docx] names (lines 76-78) taken
    out, for comparison with [on_created]. *)
Definition on_created_without_docx_rule (event : FileEvent) : M unit :=
  logger_debug ("New file detected: " ++ src_path event);;
  if negb (is_directory event) then
    let file_path := src_path event in
    let filename := OsPath.basename file_path in
    let directory_path := OsPath.dirname file_path in
    handle_candidate file_path filename directory_path
  else ret tt.

(** ** [monitor_directory] *)

(** [observer.schedule(event_handler, path=path, recursive=True)] *)
Definition observer_schedule (path : string) : M unit :=
  record_call (Schedule path);;
  match env_schedule env path with
  | None => fun w => (Ret tt, add_watch path w)
  | Some e => raise e
  end.

(** [observer.start()] *)
Definition observer_start : M unit :=
  record_call ObserverStart;;
  match env_start env with
  | None => ret tt
  | Some e => raise e
  end.

Definition observer_stop : M unit := record_call ObserverStop.
Definition observer_join : M unit := record_call ObserverJoin.

(** Lines 154-159: the loop over the roots. *)
Fixpoint schedule_all (paths_to_watch : list string) : M unit :=
  match paths_to_watch with
  | [] => ret tt
  | path :: rest =>
      try_except
        (observer_schedule path;;
         logger_info ("Monitoring directory: " ++ path ++ " (recursive)"))
        is_OSError
        (fun e =>
           logger_error ("Error monitoring directory " ++ path ++ ": "
                         ++ exn_str e));;
      schedule_all rest
  end.

(** [while True: pass]: left only by the operator's interrupt; without
    one the call never returns. *)
Definition keep_running : M unit :=
  fun w =>
    if env_interrupt env
    then (Raise {| exn_cls := KeyboardInterrupt; exn_str := "" |}, w)
    else (Hang, w).

Definition monitor_directory (paths_to_watch : list string) : M unit :=
  schedule_all paths_to_watch;;
  observer_start;;
  try_except keep_running is_KeyboardInterrupt (fun _ => observer_stop);;
  observer_join.

(** ** The start-up block ([__main__]) *)

(** Lines 179-184: [input("Enter path: ").strip()] until a blank line;
    [input] raises [EOFError] when standard input is exhausted. *)
Fixpoint prompt_loop (lines paths_to_watch : list string) : M (list string) :=
  match lines with
  | [] =>
      record_call (Input "Enter path: ");;
      raise {| exn_cls := EOFError; exn_str := "EOF when reading a line" |}
  | line :: rest =>
      record_call (Input "Enter path: ");;
      (fun w => (Ret tt, set_stdin rest w));;
      let input_path := Py.strip line in
      if Py.truthy input_path
      then prompt_loop rest (paths_to_watch ++ [input_path])
      else ret paths_to_watch
  end.

Definition prompt_paths (paths_to_watch : list string) : M (list string) :=
  fun w => prompt_loop (stdin w) paths_to_watch w.

(** [cleanup_old_logs(LOG_DIR, days=60)], the log-retention
    collaborator: kept as one call, its deletions are not modelled. *)
Definition cleanup_old_logs : M unit :=
  logger_info "Starting log cleanup process...";;
  record_call CleanupOldLogs.

(** [not paths_to_watch] *)
Definition is_empty (l : list string) : bool :=
  match l with [] => true | _ => false end.

(** The block under [if __name__ == "__main__":], with the list
    written at lines 172-174 as its argument; [collect_paths] is its
    first part, lines 176-184. *)
Definition collect_paths (configured : list string) : M (list string) :=
  if is_empty configured
  then
    logger_info "Enter directories to monitor (one per line). Press Enter on a blank line to finish:";;
    prompt_paths configured
  else ret configured.

Definition main (configured : list string) : M unit :=
  paths_to_watch <- collect_paths configured;;
  (if is_empty paths_to_watch
   then
     logger_error "No directories provided to monitor. Exiting.";;
     raise {| exn_cls := SystemExit 1; exn_str := "1" |}
   else ret tt);;
  monitor_directory paths_to_watch;;
  cleanup_old_logs.

End Program.

(** ** [cleanup_old_logs], the sweep of the log directory *)

Module Retention.

Section Sweep.

(** [time.time()] and [os.path.getmtime] are floats: the type of time
    stamps, [now - (days * 86400)] and [file_mtime < cutoff] are left
    to the instance. *)
Variable time : Type.
Variable time_sub : time -> Z -> time.
Variable time_ltb : time -> time -> bool.

(** The answers of the clock and of the directory. *)
Record LogDir := {
  ld_now : time;
  ld_listdir : string -> list string + exn;
  ld_getmtime : string -> time + exn
}.

Variable env : Env.
Variable dirs : LogDir.

(** [time.time()] *)
Definition time_time : M time := ret (ld_now dirs).

(** [os.listdir(directory)] *)
Definition os_listdir (directory : string) : M (list string) :=
  match ld_listdir dirs directory with
  | inl filenames => ret filenames
  | inr e => raise e
  end.

(** [os.path.getmtime(p)] *)
Definition os_getmtime (p : string) : M time :=
  match ld_getmtime dirs p with
  | inl t => ret t
  | inr e => raise e
  end.

(** Lines 49-57: the body of the loop, for one directory entry. *)
Definition sweep_file (directory : string) (cutoff : time) (filename : string)
    : M unit :=
  let file_path := OsPath.join directory filename in
  if Py.endswith filename ".log" then
    file_mtime <- os_getmtime file_path;;
    if time_ltb file_mtime cutoff then
      try_except
        (os_remove env file_path;;
         logger_info ("Deleted old log file: " ++ file_path))
        is_Exception
        (fun e =>
           logger_error ("Failed to delete log file " ++ file_path ++ ": "
                         ++ exn_str e))
    else ret tt
  else ret tt.

(** Line 48: [for filename in os.listdir(directory)] *)
Fixpoint sweep (directory : string) (cutoff : time) (filenames : list string)
    : M unit :=
  match filenames with
  | [] => ret tt
  | filename :: rest =>
      sweep_file directory cutoff filename;;
      sweep directory cutoff rest
  end.

Definition cleanup_old_logs (directory : string) (days : Z) : M unit :=
  logger_info "Starting log cleanup process...";;
  now <- time_time;;
  let cutoff := time_sub now (days * 86400) in
  filenames <- os_listdir directory;;
  sweep directory cutoff filenames.

(** The entry [filename] of [directory] is a log file last modified
    before [cutoff]: the test of lines 50-52. *)
Definition expired (directory : string) (cutoff : time) (filename : string) : bool :=
  Py.endswith filename ".log" &&
  match ld_getmtime dirs (OsPath.join directory filename) with
  | inl t => time_ltb t cutoff
  | inr _ => false
  end.

End Sweep.

End Retention.

(** ** Observations on a run *)

Local Open Scope list_scope.

#[global] Instance exn_class_eq_dec : EqDecision exn_class.
Proof. solve_decision. Defined.

#[global] Instance exn_eq_dec : EqDecision exn.
Proof. solve_decision. Defined.

#[global] Instance call_eq_dec : EqDecision call.
Proof. solve_decision. Defined.

#[global] Instance level_eq_dec : EqDecision level.
Proof. solve_decision. Defined.

(** The world a computation ends in, started on a fresh world. *)
Definition final {A} (m : M A) (files : gset string) (input : list string) : World :=
  snd (m (init_world files input)).

(** A job exists from the moment the handler asks for its temporary
    file (line 87). *)
Definition job_created (env : Env) (event : FileEvent)
    (files : gset string) (input : list string) : Prop :=
  NamedTemporaryFile ∈ calls (final (on_created env event) files input).

#[global] Instance job_created_dec env event files input :
  Decision (job_created env event files input).
Proof. unfold job_created. apply _. Defined.

(** A rejected event: the handler makes no call at all. *)
Definition rejected (env : Env) (event : FileEvent)
    (files : gset string) (input : list string) : Prop :=
  calls (final (on_created env event) files input) = [].

(** [w'] is [w] with calls and log records appended. *)
Definition extends (w w' : World) : Prop :=
  (exists lc, calls w' = calls w ++ lc) /\ (exists ll, log w' = log w ++ ll).

(** A computation only appends to the calls and to the log. *)
Definition grows {A} (m : M A) : Prop :=
  forall w, extends w (snd (m w)).

(** The calls [monitor_directory] makes on the observer. *)
Definition watcher_call (c : call) : bool :=
  match c with
  | Schedule _ | ObserverStart | ObserverStop | ObserverJoin => true
  | _ => false
  end.

(** ** Sample environments *)

(** Every collaborator succeeds: the process exits with status 0 and an
    empty error stream, pypandoc writes the document and returns [""]. *)
Definition env_well (tmp : string) : Env :=
  {| env_tempfile := inl tmp;
     env_run := fun _ => inl {| returncode := 0; stdout := "ok"; stderr := "" |};
     env_makedirs := fun _ => None;
     env_convert := fun _ _ _ => {| conv_result := inl ""; conv_wrote := true |};
     env_remove := fun _ => None;
     env_schedule := fun _ => None;
     env_start := None;
     env_interrupt := true |}.

(** As [env_well], with the answer of the stage-1 process replaced. *)
Definition with_run (r : CompletedProcess + exn) (env : Env) : Env :=
  {| env_tempfile := env_tempfile env;
     env_run := fun _ => r;
     env_makedirs := env_makedirs env;
     env_convert := env_convert env;
     env_remove := env_remove env;
     env_schedule := env_schedule env;
     env_start := env_start env;
     env_interrupt := env_interrupt env |}.

(** With the answer of [os.makedirs] replaced. *)
Definition with_makedirs (r : option exn) (env : Env) : Env :=
  {| env_tempfile := env_tempfile env;
     env_run := env_run env;
     env_makedirs := fun _ => r;
     env_convert := env_convert env;
     env_remove := env_remove env;
     env_schedule := env_schedule env;
     env_start := env_start env;
     env_interrupt := env_interrupt env |}.

(** With the answer of [pypandoc.convert_file] replaced. *)
Definition with_convert (c : Conversion) (env : Env) : Env :=
  {| env_tempfile := env_tempfile env;
     env_run := env_run env;
     env_makedirs := env_makedirs env;
     env_convert := fun _ _ _ => c;
     env_remove := env_remove env;
     env_schedule := env_schedule env;
     env_start := env_start env;
     env_interrupt := env_interrupt env |}.

(** With the answer of [observer.start] replaced. *)
Definition with_start (r : option exn) (env : Env) : Env :=
  {| env_tempfile := env_tempfile env;
     env_run := env_run env;
     env_makedirs := env_makedirs env;
     env_convert := env_convert env;
     env_remove := env_remove env;
     env_schedule := env_schedule env;
     env_start := r;
     env_interrupt := env_interrupt env |}.

(** With the answer of [observer.schedule] replaced. *)
Definition with_schedule (f : string -> option exn) (env : Env) : Env :=
  {| env_tempfile := env_tempfile env;
     env_run := env_run env;
     env_makedirs := env_makedirs env;
     env_convert := env_convert env;
     env_remove := env_remove env;
     env_schedule := f;
     env_start := env_start env;
     env_interrupt := env_interrupt env |}.

Definition os_error (msg : string) : exn := {| exn_cls := OSError; exn_str := msg |}.

(** A log directory with time stamps in whole seconds: the live log,
    a rotated log, a log file last written long ago, and the script. *)
Definition sample_logdir (vanished : string) : Retention.LogDir Z :=
  {| Retention.ld_now := 10000000;
     Retention.ld_listdir := fun _ =>
       inl ["monitor.log"; "monitor.log.2024-01-15"; "old.log"; "monitor.py"];
     Retention.ld_getmtime := fun p =>
       if String.eqb p vanished
       then inr (os_error "[Errno 2] No such file or directory")
       else if String.eqb p "/opt/monitor/monitor.log" then inl 9999000
       else inl 100 |}.
Definition other_error (msg : string) : exn :=
  {| exn_cls := OtherException; exn_str := msg |}.

(** * Properties *)

(** ** The string and path operations on sample inputs *)

Example lower_mixed : Py.lower "Config-A.XmL" = "config-a.xml".
Proof. reflexivity. Qed.

Example basename_abs : OsPath.basename "/srv/in/config-a.xml" = "config-a.xml".
Proof. reflexivity. Qed.

Example dirname_abs : OsPath.dirname "/srv/in/config-a.xml" = "/srv/in".
Proof. reflexivity. Qed.

Example dirname_root : OsPath.dirname "/config-a.xml" = "/".
Proof. reflexivity. Qed.

Example dirname_bare : OsPath.dirname "config-a.xml" = "".
Proof. reflexivity. Qed.

Example splitext_abs :
  OsPath.splitext "/srv/in.d/config-a.xml" = ("/srv/in.d/config-a", ".xml").
Proof. reflexivity. Qed.

Example splitext_hidden : OsPath.splitext "/srv/.xml" = ("/srv/.xml", "").
Proof. reflexivity. Qed.

Example join_abs : OsPath.join "/srv/in" "/srv/in/config-a.docx" = "/srv/in/config-a.docx".
Proof. reflexivity. Qed.

Example join_rel : OsPath.join "in" "in/config-a.docx" = "in/in/config-a.docx".
Proof. reflexivity. Qed.

Example strip_blank : Py.strip "  	" = "".
Proof. reflexivity. Qed.

Example strip_path : Py.strip "  /srv/in " = "/srv/in".
Proof. reflexivity. Qed.

(** ** Paths: what [rfind], [basename], [dirname] and [splitext] compute *)

Lemma append_cons a (u v : string) : (String a u +:+ v)%string = String a (u +:+ v).
Proof. reflexivity. Qed.

Lemma append_nil (v : string) : ("" +:+ v)%string = v.
Proof. reflexivity. Qed.

Lemma take_app_length (u v : string) : Py.take (String.length u) (u +:+ v) = u.
Proof.
  induction u as [|a u IH]; [by destruct v|].
  rewrite append_cons. simpl. by f_equal.
Qed.

Lemma drop_app_length (u v : string) : Py.drop (String.length u) (u +:+ v) = v.
Proof. induction u as [|a u IH]; [by destruct v|]. by rewrite append_cons. Qed.

Lemma take_drop (n : nat) (s : string) : (Py.take n s +:+ Py.drop n s)%string = s.
Proof.
  revert s. induction n as [|n IH]; intros [|a s]; try done.
  simpl. rewrite append_cons. f_equal. apply IH.
Qed.

Lemma lower_app (u v : string) :
  Py.lower (u +:+ v) = (Py.lower u +:+ Py.lower v)%string.
Proof.
  induction u as [|a u IH]; [done|].
  rewrite append_cons. simpl. rewrite append_cons. by f_equal.
Qed.

Lemma contains_app c (u v : string) :
  Py.contains c (u +:+ v) = Py.contains c u || Py.contains c v.
Proof.
  induction u as [|a u IH]; [done|].
  rewrite append_cons. simpl. by rewrite IH, orb_assoc.
Qed.

Lemma endswith_app (u v : string) : Py.endswith (u +:+ v) v = true.
Proof.
  induction u as [|a u IH].
  - rewrite append_nil. destruct v; simpl; [done|].
    by rewrite Ascii.eqb_refl, String.eqb_refl.
  - rewrite append_cons. simpl. rewrite IH. apply orb_true_r.
Qed.

Lemma endswith_split (s suf : string) :
  Py.endswith s suf = true -> exists u, s = (u +:+ suf)%string.
Proof.
  induction s as [|a s IH]; cbn [Py.endswith]; intros H.
  - rewrite orb_false_r in H. apply String.eqb_eq in H. by exists "".
  - apply orb_true_iff in H as [H|H].
    + apply String.eqb_eq in H. by exists "".
    + destruct (IH H) as [u ->]. by exists (String a u).
Qed.

Lemma rfind_from_absent c (s : string) i acc :
  Py.contains c s = false -> Py.rfind_from c s i acc = acc.
Proof.
  revert i acc. induction s as [|a s IH]; cbn; intros i acc H; [done|].
  apply orb_false_iff in H as [Ha Hs]. rewrite Ha. by apply IH.
Qed.

Lemma rfind_from_last c (u v : string) i acc :
  Py.contains c v = false ->
  Py.rfind_from c (u +:+ String c v) i acc = i + Z.of_nat (String.length u).
Proof.
  revert i acc. induction u as [|a u IH]; intros i acc H.
  - rewrite append_nil. cbn [Py.rfind_from]. rewrite Ascii.eqb_refl.
    rewrite rfind_from_absent by done. cbn. lia.
  - rewrite append_cons. cbn [Py.rfind_from]. rewrite IH by done.
    cbn [String.length]. lia.
Qed.

Lemma contains_last_split c (s : string) :
  Py.contains c s = true ->
  exists u v, s = (u +:+ String c v)%string /\ Py.contains c v = false.
Proof.
  induction s as [|a s IH]; cbn; intros H; [discriminate|].
  destruct (Py.contains c s) eqn:Hs.
  - destruct (IH eq_refl) as (u & v & -> & Hv). by exists (String a u), v.
  - rewrite orb_false_r in H. apply Ascii.eqb_eq in H. subst a. by exists "", s.
Qed.

Lemma rfind_absent c (s : string) : Py.contains c s = false -> Py.rfind s c = -1.
Proof. apply rfind_from_absent. Qed.

Lemma rfind_last c (u v : string) :
  Py.contains c v = false ->
  Py.rfind (u +:+ String c v) c = Z.of_nat (String.length u).
Proof. intros H. unfold Py.rfind. by rewrite rfind_from_last. Qed.

(** The base name is what follows the last separator. *)
Lemma basename_app (d f : string) :
  Py.contains OsPath.sep f = false ->
  OsPath.basename (d +:+ String OsPath.sep f) = f.
Proof.
  intros Hf. unfold OsPath.basename. rewrite rfind_last by done.
  replace (Z.to_nat (Z.of_nat (String.length d) + 1)) with (S (String.length d)) by lia.
  clear Hf. induction d as [|a d IH]; [by destruct f|].
  rewrite append_cons. exact IH.
Qed.

Lemma basename_bare (f : string) :
  Py.contains OsPath.sep f = false -> OsPath.basename f = f.
Proof.
  intros Hf. unfold OsPath.basename. rewrite rfind_absent by done. by destruct f.
Qed.

Lemma basename_no_sep (p : string) :
  Py.contains OsPath.sep (OsPath.basename p) = false.
Proof.
  destruct (Py.contains OsPath.sep p) eqn:Hp.
  - destruct (contains_last_split _ _ Hp) as (u & v & -> & Hv).
    by rewrite basename_app.
  - by rewrite basename_bare.
Qed.

(** ** The extension tests of the handler and [os.path.splitext] *)

Lemma lower_char_dot (a : ascii) : Py.lower_char a = "."%char <-> a = "."%char.
Proof.
  destruct a as [[] [] [] [] [] [] [] []]; vm_compute; split; congruence.
Qed.

Lemma contains_dot_lower (s : string) :
  Py.contains "." (Py.lower s) = Py.contains "." s.
Proof.
  induction s as [|a s IH]; [done|]. simpl. rewrite IH. f_equal.
  destruct (Ascii.eqb_spec a "."%char) as [->|Hne]; [done|].
  apply Ascii.eqb_neq. intros H. apply Hne. by apply lower_char_dot.
Qed.

Lemma lower_split (s u' v' : string) :
  Py.lower s = (u' +:+ v')%string ->
  exists u v, s = (u +:+ v)%string /\ Py.lower u = u' /\ Py.lower v = v'.
Proof.
  revert s. induction u' as [|b u' IH]; intros s H.
  - by exists "", s.
  - destruct s as [|a s]; [discriminate|].
    rewrite append_cons in H. simpl in H. injection H as Ha Hs.
    destruct (IH s Hs) as (u & v & -> & Hu & Hv).
    exists (String a u), v. simpl. by rewrite Ha, Hu.
Qed.

(** For a name without separator that does not start with a dot, and a
    suffix made of a dot and a dot-free body: the lower-cased name ends
    in the suffix exactly when the lower-cased extension is the suffix. *)
Lemma endswith_lower_splitext (n body : string) :
  Py.contains "." body = false ->
  Py.contains OsPath.sep n = false ->
  Py.startswith n "." = false ->
  Py.endswith (Py.lower n) (String "." body) = true <->
  Py.lower (snd (OsPath.splitext n)) = String "." body.
Proof.
  intros Hbody Hsep Hdot. split.
  - intros H. apply endswith_split in H as [u' H].
    apply lower_split in H as (u & v & -> & _ & Hv).
    destruct v as [|a v]; [discriminate|]. simpl in Hv. injection Hv as Ha Hv.
    apply (proj1 (lower_char_dot a)) in Ha. subst a.
    assert (Hv' : Py.contains "." v = false)
      by (by rewrite <- contains_dot_lower, Hv).
    unfold OsPath.splitext. rewrite (rfind_absent _ _ Hsep).
    unfold OsPath.extsep. rewrite rfind_last by done.
    rewrite (proj2 (Z.gtb_lt _ _)) by lia.
    replace (Z.to_nat (Z.of_nat (String.length u) - (-1 + 1)))
      with (String.length u) by lia.
    replace (Z.to_nat (-1 + 1)) with 0%nat by lia.
    rewrite Nat2Z.id.
    replace (Py.drop 0 (u +:+ String "." v)) with (u +:+ String "." v)%string
      by (by destruct (u +:+ String "." v)%string).
    rewrite take_app_length, drop_app_length.
    destruct u as [|c u];
      [rewrite append_nil in Hdot; by destruct v; vm_compute in Hdot|].
    rewrite append_cons in Hdot.
    assert (Hc : Ascii.eqb c "." = false).
    { destruct (u +:+ String "." v)%string; simpl in Hdot;
        by rewrite andb_true_r in Hdot. }
    clear Hdot. rename Hc into Hdot.
    simpl. unfold OsPath.extsep. rewrite Hdot. simpl. by rewrite Hv.
  - unfold OsPath.splitext.
    destruct (_ && _); cbn [snd]; [|discriminate].
    intros H. rewrite <- (take_drop (Z.to_nat (Py.rfind n OsPath.extsep)) n).
    rewrite lower_app, H. apply endswith_app.
Qed.

(** On the names the handler can accept, its two extension tests are
    tests of the extension [os.path.splitext] gives. *)
Lemma extension_tests_agree (p : string) :
  let filename := OsPath.basename p in
  Py.startswith filename "config-" = true ->
  (Py.endswith (Py.lower filename) ".xml" = true <->
   Py.lower (snd (OsPath.splitext filename)) = ".xml") /\
  (Py.endswith (Py.lower filename) ".docx" = true <->
   Py.lower (snd (OsPath.splitext filename)) = ".docx").
Proof.
  cbn zeta. intros Hpre.
  assert (Hdot : Py.startswith (OsPath.basename p) "." = false).
  { destruct (OsPath.basename p) as [|c n]; [done|]. simpl in *.
    apply andb_true_iff in Hpre as [Hc _]. apply Ascii.eqb_eq in Hc. by subst c. }
  split; apply endswith_lower_splitext; auto using basename_no_sep.
Qed.

(** ** The output path of an absolute source path *)

Lemma length_append (u v : string) :
  String.length (u +:+ v) = (String.length u + String.length v)%nat.
Proof. induction u as [|a u IH]; [done|]. rewrite append_cons. simpl. by rewrite IH. Qed.

Lemma append_assoc (u v w : string) :
  ((u +:+ v) +:+ w)%string = (u +:+ (v +:+ w))%string.
Proof. induction u as [|a u IH]; [done|]. rewrite !append_cons. by rewrite IH. Qed.

Lemma startswith_nil (s : string) : Py.startswith s "" = true.
Proof. by destruct s. Qed.

Lemma drop_0 (s : string) : Py.drop 0 s = s.
Proof. by destruct s. Qed.

Lemma drop_succ_app (d f : string) a :
  Py.drop (S (String.length d)) (d +:+ String a f) = f.
Proof.
  induction d as [|c d IH]; [by destruct f|]. rewrite append_cons. exact IH.
Qed.

Lemma rfind_nonneg c (s : string) : Py.contains c s = true -> 0 <= Py.rfind s c.
Proof.
  intros H. destruct (contains_last_split _ _ H) as (u & v & -> & Hv).
  rewrite rfind_last by done. lia.
Qed.

(** With an absolute source path, [os.path.join] drops the directory:
    the output path is the source path with its extension replaced. *)
Lemma docx_path_absolute (directory_path q : string) :
  docx_path directory_path (String "/" q)
  = (fst (OsPath.splitext (String "/" q)) +:+ ".docx")%string.
Proof.
  unfold docx_path.
  assert (H : exists r, fst (OsPath.splitext (String "/" q)) = String "/" r).
  { unfold OsPath.splitext. destruct (_ && _) eqn:Hc; cbn [fst]; [|eauto].
    apply andb_true_iff in Hc as [Hc _]. apply Z.gtb_lt in Hc.
    assert (0 <= Py.rfind (String "/" q) OsPath.sep)
      by (apply rfind_nonneg; simpl; done).
    destruct (Z.to_nat (Py.rfind (String "/" q) OsPath.extsep)) as [|k] eqn:Hk;
      [lia|]. simpl. eauto. }
  destruct H as [r ->]. unfold OsPath.join. rewrite append_cons.
  simpl. by rewrite startswith_nil.
Qed.

(** [splitext] of a name without separator whose last dot is at the end
    of [u]. *)
Lemma splitext_name (u v : string) :
  Py.contains OsPath.sep (u +:+ String OsPath.extsep v) = false ->
  Py.contains OsPath.extsep v = false ->
  OsPath.splitext (u +:+ String OsPath.extsep v)
  = if OsPath.has_non_dot u then (u, String OsPath.extsep v)
    else ((u +:+ String OsPath.extsep v)%string, "").
Proof.
  intros Hsep Hv. unfold OsPath.splitext.
  rewrite (rfind_absent _ _ Hsep), rfind_last by done.
  rewrite (proj2 (Z.gtb_lt _ _)) by lia.
  replace (Z.to_nat (-1 + 1)) with 0%nat by lia. rewrite drop_0.
  replace (Z.to_nat (Z.of_nat (String.length u) - (-1 + 1)))
    with (String.length u) by lia.
  rewrite Nat2Z.id, take_app_length, drop_app_length. done.
Qed.

(** [splitext] works on the last component only. *)
Lemma splitext_under (d f : string) :
  Py.contains OsPath.sep f = false ->
  OsPath.splitext (d +:+ String OsPath.sep f)
  = ((d +:+ String OsPath.sep (fst (OsPath.splitext f)))%string,
     snd (OsPath.splitext f)).
Proof.
  intros Hf.
  destruct (Py.contains OsPath.extsep f) eqn:Hdot.
  - destruct (contains_last_split _ _ Hdot) as (u & v & -> & Hv).
    rewrite (splitext_name u v Hf Hv).
    assert (Hp : (d +:+ String OsPath.sep (u +:+ String OsPath.extsep v))%string
                 = ((d +:+ String OsPath.sep u) +:+ String OsPath.extsep v)%string)
      by (by rewrite append_assoc, append_cons).
    unfold OsPath.splitext.
    rewrite (rfind_last OsPath.sep d _ Hf).
    rewrite Hp. rewrite rfind_last by done. rewrite <- Hp at 1.
    rewrite length_append. cbn [String.length].
    rewrite (proj2 (Z.gtb_lt _ _)) by lia.
    replace (Z.to_nat (Z.of_nat (String.length d) + 1)) with (S (String.length d)) by lia.
    rewrite drop_succ_app.
    replace (Z.to_nat (Z.of_nat (String.length d + S (String.length u))
                       - (Z.of_nat (String.length d) + 1)))
      with (String.length u) by lia.
    rewrite take_app_length. cbn [andb].
    replace (Z.to_nat (Z.of_nat (String.length d + S (String.length u))))
      with (String.length (d +:+ String OsPath.sep u)) 
      by (rewrite length_append; cbn [String.length]; lia).
    rewrite take_app_length, drop_app_length.
    destruct (OsPath.has_non_dot u); cbn [fst snd]; [done|].
    by rewrite Hp.
  - assert (Hsf : OsPath.splitext f = (f, "")).
    { unfold OsPath.splitext. rewrite (rfind_absent _ _ Hf), (rfind_absent _ _ Hdot).
      done. }
    rewrite Hsf. cbn [fst snd]. unfold OsPath.splitext.
    rewrite (rfind_last OsPath.sep d _ Hf).
    assert (Hlt : Py.rfind (d +:+ String OsPath.sep f) OsPath.extsep
                  < Z.of_nat (String.length d)).
    { destruct (Py.contains OsPath.extsep d) eqn:Hd.
      - destruct (contains_last_split _ _ Hd) as (u & v & -> & Hv).
        rewrite append_assoc, append_cons. rewrite rfind_last.
        + rewrite length_append. cbn [String.length]. lia.
        + rewrite contains_app, Hv. simpl. exact Hdot.
      - rewrite rfind_absent; [lia|]. rewrite contains_app, Hd. simpl. exact Hdot. }
    destruct (_ >? _) eqn:Hg; [apply Z.gtb_lt in Hg; lia|done].
Qed.

Lemma contains_take c (n : nat) (s : string) :
  Py.contains c s = false -> Py.contains c (Py.take n s) = false.
Proof.
  revert s. induction n as [|n IH]; intros [|a s] H; try done.
  simpl in *. apply orb_false_iff in H as [Ha Hs]. by rewrite Ha, IH.
Qed.

Lemma splitext_fst_no_sep (f : string) :
  Py.contains OsPath.sep f = false ->
  Py.contains OsPath.sep (fst (OsPath.splitext f)) = false.
Proof.
  intros Hf. unfold OsPath.splitext. destruct (_ && _); cbn [fst]; [|done].
  by apply contains_take.
Qed.

Lemma take_succ_app (d f : string) a :
  Py.take (S (String.length d)) (d +:+ String a f) = (d +:+ String a "")%string.
Proof.
  induction d as [|c d IH]; [by destruct f|].
  rewrite !append_cons. change (String.length (String c d)) with (S (String.length d)).
  change (Py.take (S (S (String.length d))) (String c (d +:+ String a f)))
    with (String c (Py.take (S (String.length d)) (d +:+ String a f))).
  by rewrite IH.
Qed.

Lemma all_char_rstrip c (s : string) :
  Py.all_char c s = true -> Py.rstrip_char c s = "".
Proof.
  induction s as [|a s IH]; [done|]. simpl. intros H.
  apply andb_true_iff in H as [Ha Hs]. by rewrite (IH Hs), Ha.
Qed.

Lemma rstrip_char_app_sep (d : string) :
  Py.endswith d "/" = false ->
  Py.rstrip_char OsPath.sep (d +:+ "/") = d.
Proof.
  induction d as [|a d IH]; [done|]. cbn [Py.endswith]. intros H.
  apply orb_false_iff in H as [Ha Hd]. rewrite append_cons.
  cbn [Py.rstrip_char]. rewrite (IH Hd).
  destruct d as [|b d]; [|done].
  destruct (Ascii.eqb_spec a OsPath.sep) as [->|]; [discriminate|done].
Qed.

(** The directory of a path made of a directory that does not end in a
    separator, a separator and a name. *)
Lemma dirname_under (d f : string) :
  Py.contains OsPath.sep f = false ->
  d <> "" ->
  Py.endswith d "/" = false ->
  OsPath.dirname (d +:+ String OsPath.sep f) = d.
Proof.
  intros Hf Hne Hend. unfold OsPath.dirname.
  rewrite rfind_last by done.
  replace (Z.to_nat (Z.of_nat (String.length d) + 1)) with (S (String.length d)) by lia.
  rewrite take_succ_app.
  assert (Ht : Py.truthy (d +:+ String OsPath.sep "") = true)
    by (by destruct d).
  rewrite Ht. cbn [andb].
  destruct (Py.all_char OsPath.sep (d +:+ String OsPath.sep "")) eqn:Hall.
  - apply all_char_rstrip in Hall. rewrite rstrip_char_app_sep in Hall by done.
    done.
  - cbn [negb]. by apply rstrip_char_app_sep.
Qed.

(** X9. For an absolute source path in a directory that does not end in
    a separator, the output path is the directory of the source joined
    with its base name, the extension replaced by [.docx]. *)
Lemma docx_path_adjacent (d f : string) :
  Py.startswith d "/" = true ->
  Py.endswith d "/" = false ->
  Py.contains OsPath.sep f = false ->
  let p := (d +:+ String OsPath.sep f)%string in
  OsPath.dirname p = d /\ OsPath.basename p = f /\
  docx_path (OsPath.dirname p) p
  = OsPath.join (OsPath.dirname p)
      (fst (OsPath.splitext (OsPath.basename p)) +:+ ".docx")%string.
Proof.
  intros Habs Hend Hf. cbn zeta.
  assert (Hne : d <> "") by (by destruct d).
  rewrite dirname_under, basename_app by done.
  split; [done|]. split; [done|].
  destruct d as [|a d']; [done|].
  assert (a = "/"%char) as ->.
  { simpl in Habs. apply andb_true_iff in Habs as [Ha _]. by apply Ascii.eqb_eq. }
  rewrite append_cons, docx_path_absolute. rewrite <- append_cons.
  rewrite splitext_under by done. cbn [fst].
  unfold OsPath.join.
  pose proof (splitext_fst_no_sep f Hf) as Hstem.
  assert (Hrel : Py.startswith (fst (OsPath.splitext f) +:+ ".docx") "/" = false).
  { destruct (fst (OsPath.splitext f)) as [|c r]; [done|].
    rewrite append_cons. cbn [Py.contains] in Hstem.
    apply orb_false_iff in Hstem as [Hc _].
    cbn [Py.startswith]. unfold OsPath.sep in Hc. by rewrite Hc. }
  change (String OsPath.sep "") with "/"%string.
  rewrite Hrel, Hend. cbn [Py.truthy String.eqb negb orb].
  by rewrite !append_assoc, !append_cons, !append_nil.
Qed.

(** ** Calls are only ever appended *)

Lemma extends_refl w : extends w w.
Proof. split; exists []; by rewrite app_nil_r. Qed.

Lemma extends_trans w1 w2 w3 : extends w1 w2 -> extends w2 w3 -> extends w1 w3.
Proof.
  intros [[c1 Hc1] [l1 Hl1]] [[c2 Hc2] [l2 Hl2]]. split.
  - exists (c1 ++ c2). by rewrite Hc2, Hc1, app_assoc.
  - exists (l1 ++ l2). by rewrite Hl2, Hl1, app_assoc.
Qed.

Lemma extends_calls w w' c : extends w w' -> c ∈ calls w -> c ∈ calls w'.
Proof. intros [[lc ->] _] Hc. apply elem_of_app. by left. Qed.

Lemma extends_log w w' r : extends w w' -> r ∈ log w -> r ∈ log w'.
Proof. intros [_ [ll ->]] Hr. apply elem_of_app. by left. Qed.

Lemma grows_ret {A} (a : A) : grows (ret a).
Proof. intros w. apply extends_refl. Qed.

Lemma grows_raise {A} (e : exn) : grows (@raise A e).
Proof. intros w. apply extends_refl. Qed.

Lemma grows_bind {A B} (m : M A) (k : A -> M B) :
  grows m -> (forall a, grows (k a)) -> grows (bind m k).
Proof.
  intros Hm Hk w. unfold bind. specialize (Hm w).
  destruct (m w) as [[a|e|] w'] eqn:E; simpl in *; try done.
  eapply extends_trans; [exact Hm | apply Hk].
Qed.

Lemma grows_try {A} (body : M A) catches (handler : exn -> M A) :
  grows body -> (forall e, grows (handler e)) ->
  grows (try_except body catches handler).
Proof.
  intros Hb Hh w. unfold try_except. specialize (Hb w).
  destruct (body w) as [[a|e|] w'] eqn:E; simpl in *; try done.
  destruct (catches e); [|done].
  eapply extends_trans; [exact Hb | apply Hh].
Qed.

Lemma grows_record_call c : grows (record_call c).
Proof. intros w. split; [by exists [c] | exists []; by rewrite app_nil_r]. Qed.

Lemma grows_logger l m : grows (logger l m).
Proof. intros w. split; [exists []; by rewrite app_nil_r | by exists [(l, m)]]. Qed.

Lemma grows_silent {A} (m : M A) :
  (forall w, calls (snd (m w)) = calls w /\ log (snd (m w)) = log w) -> grows m.
Proof.
  intros H w. destruct (H w) as [Hc Hl].
  split; exists []; by rewrite app_nil_r.
Qed.

Lemma grows_set_fs {A} (a : A) f : grows (fun w => (Ret a, set_fs f w)).
Proof. by apply grows_silent. Qed.

Lemma grows_if {A} (b : bool) (m1 m2 : M A) :
  grows m1 -> grows m2 -> grows (if b then m1 else m2).
Proof. by destruct b. Qed.

Lemma elem_after_bind {A B} (m : M A) (k : A -> M B) w c :
  c ∈ calls (snd (m w)) -> (forall a, grows (k a)) ->
  c ∈ calls (snd (bind m k w)).
Proof.
  intros Hc Hk. unfold bind. destruct (m w) as [[a|e|] w'] eqn:E; simpl in *; try done.
  by apply (extends_calls w'); [apply Hk|].
Qed.

Lemma elem_after_try {A} (body : M A) catches (handler : exn -> M A) w c :
  c ∈ calls (snd (body w)) -> (forall e, grows (handler e)) ->
  c ∈ calls (snd (try_except body catches handler w)).
Proof.
  intros Hc Hh. unfold try_except.
  destruct (body w) as [[a|e|] w'] eqn:E; simpl in *; try done.
  destruct (catches e); [|done].
  by apply (extends_calls w'); [apply Hh|].
Qed.

Create HintDb grows.
#[global] Hint Resolve grows_ret grows_raise grows_record_call grows_logger
  grows_set_fs grows_if : grows.

(** Splits a computation along its binds, handlers and case analyses. *)
Ltac solve_grows :=
  repeat first
    [ apply grows_bind; [| intros]
    | apply grows_try; [| intros]
    | progress auto with grows
    | apply grows_logger
    | match goal with |- grows (match ?x with _ => _ end) => destruct x end
    | match goal with |- grows (fun w => (Ret tt, if ?b then _ else _)) =>
        destruct b end
    | apply grows_silent; intros; split; reflexivity ].

Lemma grows_process_new_file env d p n t : grows (process_new_file env d p n t).
Proof.
  unfold process_new_file, run_pf_format, ensure_directory, run_pandoc,
    delete_temporary, subprocess_run, path_exists, makedirs, convert_file,
    os_remove.
  solve_grows.
Qed.

Lemma grows_handle_candidate env p n d : grows (handle_candidate env p n d).
Proof.
  unfold handle_candidate, named_temporary_file.
  pose proof (grows_process_new_file env) as Hp.
  solve_grows.
Qed.

(** ** The event filter *)

(** No name ends in both [.xml] and [.docx]. *)
Lemma endswith_xml_not_docx (s : string) :
  Py.endswith s ".xml" = true -> Py.endswith s ".docx" = false.
Proof.
  induction s as [|a s IH]; [discriminate|].
  cbn [Py.endswith]. intros H.
  apply orb_true_iff in H as [H|H].
  - apply String.eqb_eq in H. injection H as Ha Hs. subst a s. reflexivity.
  - apply orb_false_iff. split; [|by apply IH].
    apply String.eqb_neq. intros Heq. injection Heq as Ha Hs. subst a s.
    by vm_compute in H.
Qed.

Lemma rejected_no_job env event files input :
  rejected env event files input -> ~ job_created env event files input.
Proof. unfold rejected, job_created. intros ->. apply not_elem_of_nil. Qed.

(** What the handler does with a name that passed the exclusion of
    [.docx]: a job for the [.xml] names with the prefix, nothing else. *)
Lemma handle_candidate_cases env file_path filename directory_path w :
  calls w = [] ->
  if Py.endswith (Py.lower filename) ".xml" && Py.startswith filename "config-"
  then NamedTemporaryFile ∈
         calls (snd (handle_candidate env file_path filename directory_path w))
  else calls (snd (handle_candidate env file_path filename directory_path w)) = [].
Proof.
  intros Hw. unfold handle_candidate.
  destruct (Py.endswith (Py.lower _) ".xml" && Py.startswith _ "config-");
    [|done].
  unfold bind at 1 2. cbn [logger_debug logger_info logger].
  apply elem_after_try; [|intros; solve_grows].
  apply elem_after_bind;
    [|intros; pose proof (grows_process_new_file env); solve_grows].
  unfold named_temporary_file, bind, record_call.
  destruct (env_tempfile env); cbn; rewrite Hw; apply list_elem_of_here.
Qed.

(** What the handler does with an event, by the four tests it makes. *)
Lemma on_created_cases env event files input :
  let filename := OsPath.basename (src_path event) in
  if negb (is_directory event)
     && negb (Py.endswith (Py.lower filename) ".docx")
     && Py.endswith (Py.lower filename) ".xml"
     && Py.startswith filename "config-"
  then job_created env event files input
  else rejected env event files input.
Proof.
  unfold job_created, rejected, final, on_created. cbn zeta.
  destruct (is_directory event); [reflexivity|].
  destruct (Py.endswith (Py.lower _) ".docx") eqn:Hdocx; [reflexivity|].
  cbn [negb andb]. unfold bind, logger_debug, logger. cbn [negb].
  by apply handle_candidate_cases.
Qed.

(** The same for the handler without the exclusion of [.docx]. *)
Lemma on_created_without_docx_rule_cases env event files input :
  let filename := OsPath.basename (src_path event) in
  let w := final (on_created_without_docx_rule env event) files input in
  if negb (is_directory event)
     && Py.endswith (Py.lower filename) ".xml"
     && Py.startswith filename "config-"
  then NamedTemporaryFile ∈ calls w
  else calls w = [].
Proof.
  unfold final, on_created_without_docx_rule. cbn zeta.
  destruct (is_directory event); [reflexivity|].
  cbn [negb andb]. unfold bind, logger_debug, logger. cbn [negb].
  by apply handle_candidate_cases.
Qed.

Lemma lower_length (s : string) : String.length (Py.lower s) = String.length s.
Proof. induction s as [|a s IH]; simpl; congruence. Qed.

(** A string that starts with [q] and whose first [length q] characters
    are [p] has [p = q]. *)
Lemma startswith_app_eq (p q rest : string) :
  String.length p = String.length q ->
  Py.startswith (p +:+ rest) q = true -> p = q.
Proof.
  revert q. induction p as [|a p IH]; intros [|b q] Hlen H; simpl in *;
    try discriminate; [reflexivity|].
  apply andb_true_iff in H as [Hab H].
  apply Ascii.eqb_eq in Hab. subst b. f_equal. apply IH; [lia|done].
Qed.

(** A job is only ever created for a name that starts with the prefix. *)
Lemma job_created_prefix env event files input :
  job_created env event files input ->
  Py.startswith (OsPath.basename (src_path event)) "config-" = true.
Proof.
  intros Hj. pose proof (on_created_cases env event files input) as H.
  cbn zeta in H.
  destruct (Py.startswith _ "config-"); [done|].
  rewrite andb_false_r in H. exfalso. revert Hj. by apply rejected_no_job.
Qed.

(** X8. The filter in terms of the extension [os.path.splitext] gives:
    a job is created exactly for the files, not directories, whose name
    starts with [config-] and has the extension [.xml] in any case. *)
Lemma job_created_iff_extension env event files input :
  let filename := OsPath.basename (src_path event) in
  job_created env event files input <->
  is_directory event = false /\
  Py.lower (snd (OsPath.splitext filename)) = ".xml" /\
  Py.lower (snd (OsPath.splitext filename)) <> ".docx" /\
  Py.startswith filename "config-" = true.
Proof.
  cbn zeta.
  pose proof (on_created_cases env event files input) as H. cbn zeta in H.
  pose proof (extension_tests_agree (src_path event)) as Hext. cbn zeta in Hext.
  pose proof (endswith_xml_not_docx
                (Py.lower (OsPath.basename (src_path event)))) as Hx.
  destruct (Py.startswith _ "config-") eqn:Hpre.
  - destruct (Hext eq_refl) as [Hxml Hdocx].
    destruct (is_directory event);
      destruct (Py.endswith (Py.lower _) ".xml") eqn:E1;
      try (rewrite Hx in H by done); cbn [negb andb] in H;
      try rewrite andb_false_r in H.
    all: split; [intros Hj | intros (Hd & He & Hne & _)]; try done.
    all: try (exfalso; revert Hj; by apply rejected_no_job).
    + split; [done|]. split; [by apply Hxml|]. split; [|done].
      intros Hd. apply Hdocx in Hd. rewrite Hx in Hd; done.
    + apply Hxml in He. discriminate.
  - rewrite andb_false_r in H.
    split; [intros Hj | intros (_ & _ & _ & ?); done].
    exfalso; revert Hj; by apply rejected_no_job.
Qed.

(** ** What the filter accepts *)

(** C3. A creation event creates a job if and only if it is not for a
    directory, the lower-cased file name ends in [.xml], it does not end
    in [.docx], and the file name as it is starts with [config-]; an
    event that fails one of the four gets no job. *)
Theorem C3_job_created_iff env event files input :
  job_created env event files input <->
  is_directory event = false /\
  Py.endswith (Py.lower (OsPath.basename (src_path event))) ".xml" = true /\
  Py.endswith (Py.lower (OsPath.basename (src_path event))) ".docx" = false /\
  Py.startswith (OsPath.basename (src_path event)) "config-" = true.
Proof.
  pose proof (on_created_cases env event files input) as H. cbn zeta in H.
  destruct (is_directory event);
    destruct (Py.endswith (Py.lower _) ".docx");
    destruct (Py.endswith (Py.lower _) ".xml");
    destruct (Py.startswith _ "config-"); cbn [negb andb] in H;
    (split; [intros Hj | intros (? & ? & ? & ?)]);
    try discriminate; try done;
    exfalso; revert Hj; by apply rejected_no_job.
Qed.

(** C9. The prefix test is made on the name as it is: a file whose name
    starts with a variant of [config-] in another case, such as
    [Config-a.xml], gets no job, whatever its extension. *)
Theorem C9_prefix_case_sensitive env event files input (p rest : string) :
  is_directory event = false ->
  OsPath.basename (src_path event) = (p +:+ rest)%string ->
  Py.lower p = "config-" ->
  p <> "config-" ->
  ~ job_created env event files input.
Proof.
  intros Hdir Hname Hlow Hne Hjob.
  apply job_created_prefix in Hjob as Hpre.
  rewrite Hname in Hpre. apply Hne.
  apply (startswith_app_eq p "config-" rest); [|done].
  by rewrite <- (lower_length p), Hlow.
Qed.

Lemma C9_prefix_case_sensitive_witness :
  Py.endswith (Py.lower "Config-a.xml") ".xml" = true /\
  ~ job_created (env_well "/tmp/tmpk3v9.md")
      {| src_path := "/srv/in/Config-a.xml"; is_directory := false |}
      ∅ [].
Proof.
  split; [reflexivity|].
  apply (C9_prefix_case_sensitive _ _ _ _ "Config-" "a.xml");
    [reflexivity | reflexivity | reflexivity | discriminate].
Defined.

(** C10. The exclusion of [.docx] names changes nothing in what is
    accepted: the handler without it creates a job for exactly the same
    events, because no lower-cased name that ends in [.xml] ends in
    [.docx]. *)
Theorem C10_docx_rule_redundant env event files input :
  (job_created env event files input <->
   NamedTemporaryFile ∈
     calls (final (on_created_without_docx_rule env event) files input)) /\
  Py.endswith (Py.lower (OsPath.basename (src_path event))) ".xml"
  && Py.endswith (Py.lower (OsPath.basename (src_path event))) ".docx" = false.
Proof.
  split;
    [|destruct (Py.endswith _ ".xml") eqn:E; [|done];
      by apply endswith_xml_not_docx].
  pose proof (on_created_cases env event files input) as H1.
  pose proof (on_created_without_docx_rule_cases env event files input) as H2.
  pose proof (endswith_xml_not_docx
                (Py.lower (OsPath.basename (src_path event)))) as Hx.
  cbn zeta in H1, H2.
  destruct (is_directory event);
    destruct (Py.endswith (Py.lower _) ".xml");
    destruct (Py.startswith _ "config-");
    try (rewrite Hx in H1 by done);
    rewrite ?andb_false_r in H1; cbn [negb andb] in H1, H2;
    try (split; intros; assumption);
    (split; intros Hj; exfalso;
     [ revert Hj; by apply rejected_no_job
     | rewrite H2 in Hj; by apply not_elem_of_nil in Hj ]).
Qed.

(** ** The conversion job *)

(** Stage 1 when the process could be run: the handler falls through,
    whatever the exit status and the error stream. *)
Lemma run_pf_format_completed env file_path md_filename md_file_path w result :
  env_run env ["powershell"; "-command"; pf_format_command file_path md_file_path]
    = inl result ->
  exists w1,
    run_pf_format env file_path md_filename md_file_path w = (Ret FallThrough, w1) /\
    fs w1 = fs w /\
    extends w w1 /\
    (Py.truthy (stderr result) = true ->
     (LvlError, ("Command errors: " +:+ stderr result)%string) ∈ log w1).
Proof.
  intros Hrun. unfold run_pf_format, subprocess_run, try_except, bind.
  cbn [logger_debug logger_info logger_error logger record_call].
  rewrite Hrun. cbn beta iota delta [ret].
  destruct (Py.truthy (stderr result)) eqn:Herr; cbn.
  - eexists. split; [reflexivity|]. split; [reflexivity|]. split.
    + split; cbn; rewrite <- ?app_assoc; eauto.
    + intros _. cbn. rewrite !elem_of_app, !list_elem_of_singleton. tauto.
  - eexists. split; [reflexivity|]. split; [reflexivity|]. split.
    + split; cbn; rewrite <- ?app_assoc; eauto.
    + discriminate.
Qed.

Lemma grows_run_pandoc env md docx : grows (run_pandoc env md docx).
Proof. unfold run_pandoc, convert_file. solve_grows. Qed.

Lemma grows_delete_temporary env md : grows (delete_temporary env md).
Proof. unfold delete_temporary, os_remove. solve_grows. Qed.

(** The directory step always asks whether the directory is there, and
    lets the job go on unless [os.makedirs] had to be called and raised. *)
Lemma ensure_directory_cases env docx w :
  let d := OsPath.dirname docx in
  let r := ensure_directory env docx w in
  PathExists d ∈ calls (snd r) /\ extends w (snd r) /\
  ((fst r = Ret FallThrough /\ (d ∈ fs w \/ env_makedirs env d = None))
   \/ (fst r <> Ret FallThrough /\ (d ∉ fs w) /\
       (exists e, env_makedirs env d = Some e))).
Proof.
  cbn zeta. split; [|split].
  - unfold ensure_directory. apply elem_after_try; [|intros; solve_grows].
    apply elem_after_bind; [|unfold makedirs; intros; solve_grows].
    unfold path_exists, bind, record_call. cbn.
    apply elem_of_app. right. apply list_elem_of_here.
  - unfold ensure_directory, path_exists, makedirs. solve_grows.
  - unfold ensure_directory, path_exists, makedirs, try_except, bind.
    cbn [record_call ret].
    case_bool_decide as Hin; cbn in Hin |- *.
    + left. auto.
    + destruct (env_makedirs env _) as [e|] eqn:Hmk; cbn.
      * right. destruct (is_OSError e); cbn; (split; [discriminate|]); eauto.
      * left. auto.
Qed.

(** The job, stage by stage. *)
Lemma process_new_file_stages env directory_path file_path md_filename md_file_path w :
  let docx := docx_path directory_path file_path in
  process_new_file env directory_path file_path md_filename md_file_path w =
  let (o1, w1) :=
    run_pf_format env file_path md_filename md_file_path
      (add_log LvlInfo ("Starting processing of file: " +:+ file_path)%string w) in
  match o1 with
  | Ret FallThrough =>
      let (o2, w2) :=
        ensure_directory env docx
          (add_log LvlInfo
             ("Converting MD file to DOCX for: " +:+ md_filename)%string w1) in
      match o2 with
      | Ret FallThrough =>
          let (o3, w3) := run_pandoc env md_file_path docx w2 in
          match o3 with
          | Ret FallThrough =>
              let (o4, w4) := delete_temporary env md_file_path w3 in
              match o4 with
              | Ret _ => (Ret tt, add_log LvlInfo "Monitoring folder..." w4)
              | Raise e => (Raise e, w4)
              | Hang => (Hang, w4)
              end
          | Ret Returned => (Ret tt, w3)
          | Raise e => (Raise e, w3)
          | Hang => (Hang, w3)
          end
      | Ret Returned => (Ret tt, w2)
      | Raise e => (Raise e, w2)
      | Hang => (Hang, w2)
      end
  | Ret Returned => (Ret tt, w1)
  | Raise e => (Raise e, w1)
  | Hang => (Hang, w1)
  end.
Proof.
  cbn zeta. unfold process_new_file, bind. cbn [logger_info logger].
  destruct (run_pf_format _ _ _ _ _) as [[[]|e|] w1]; try reflexivity.
  destruct (ensure_directory _ _ _) as [[[]|e|] w2]; try reflexivity.
  destruct (run_pandoc _ _ _ _) as [[[]|e|] w3]; try reflexivity.
Qed.

(** Stage 2 always calls the converter. *)
Lemma run_pandoc_calls env md docx w :
  ConvertFile md "docx" docx ∈ calls (snd (run_pandoc env md docx w)).
Proof.
  unfold run_pandoc. apply elem_after_try; [|intros; solve_grows].
  apply elem_after_bind; [|intros; solve_grows].
  unfold convert_file. apply elem_after_bind; [|intros; solve_grows].
  cbn. apply elem_of_app. right. apply list_elem_of_here.
Qed.

(** Once stage 1 has returned a completed process, a non-empty error
    stream is in the log, the directory of the output path is looked up,
    and stage 2 is run unless [os.makedirs] had to be called and raised. *)
Lemma stage2_reached env directory_path file_path md_filename md_file_path w result :
  let docx := docx_path directory_path file_path in
  env_run env ["powershell"; "-command"; pf_format_command file_path md_file_path]
    = inl result ->
  let w' := snd (process_new_file env directory_path file_path md_filename
                   md_file_path w) in
  (Py.truthy (stderr result) = true ->
   (LvlError, ("Command errors: " +:+ stderr result)%string) ∈ log w') /\
  PathExists (OsPath.dirname docx) ∈ calls w' /\
  (ConvertFile md_file_path "docx" docx ∈ calls w' \/
   ((OsPath.dirname docx ∉ fs w) /\
    (exists e, env_makedirs env (OsPath.dirname docx) = Some e))).
Proof.
  cbn zeta. intros Hrun. rewrite process_new_file_stages. cbn zeta.
  destruct (run_pf_format_completed env file_path md_filename md_file_path
              (add_log LvlInfo ("Starting processing of file: " +:+ file_path)%string w)
              result Hrun) as (w1 & -> & Hfs & _ & Herr).
  match goal with |- context [ensure_directory env ?dx ?w0] =>
    destruct (ensure_directory_cases env dx w0) as (Hex & Hg2 & Hcase);
    destruct (ensure_directory env dx w0) as [o2 w2] eqn:Hens
  end.
  cbn [fst snd] in *.
  assert (Herr2 : Py.truthy (stderr result) = true ->
                  (LvlError, ("Command errors: " +:+ stderr result)%string) ∈ log w2).
  { intros Ht. eapply extends_log; [exact Hg2|]. cbn.
    apply elem_of_app. left. auto. }
  destruct Hcase as [[-> Hok]|(Hne & Hnin & Hmk)].
  - pose proof (run_pandoc_calls env md_file_path
                  (docx_path directory_path file_path) w2) as Hconv.
    pose proof (grows_run_pandoc env md_file_path
                  (docx_path directory_path file_path) w2) as Hg3.
    destruct (run_pandoc _ _ _ _) as [o3 w3]. cbn [snd] in *.
    assert (Hex3 : PathExists (OsPath.dirname (docx_path directory_path file_path))
                     ∈ calls w3) by (by eapply extends_calls).
    assert (Herr3 : Py.truthy (stderr result) = true ->
              (LvlError, ("Command errors: " +:+ stderr result)%string) ∈ log w3)
      by (intros; eapply extends_log; eauto).
    destruct o3 as [[]|e|]; cbn [snd]; auto.
    pose proof (grows_delete_temporary env md_file_path w3) as Hg4.
    destruct (delete_temporary _ _ _) as [o4 w4]. cbn [snd] in *.
    assert (extends w3 (add_log LvlInfo "Monitoring folder..." w4)).
    { eapply extends_trans; [exact Hg4|]. apply (grows_logger _ _ w4). }
    destruct o4; cbn [snd]; (split; [|split]);
      try left; eauto using extends_calls, extends_log.
  - assert (Hright : (OsPath.dirname (docx_path directory_path file_path) ∉ fs w) /\
                     (exists e, env_makedirs env
                        (OsPath.dirname (docx_path directory_path file_path)) = Some e)).
    { split; [|done]. cbn in Hnin. by rewrite Hfs in Hnin. }
    destruct o2 as [[]|e|]; cbn [snd]; try done; auto.
Qed.

(** C6. A non-empty error stream of the stage-1 process is logged as an
    error and does not stop the job: whenever the process was run and
    returned, the job goes on to look up the directory of the output
    path and to call stage 2, which is only skipped when the directory
    was missing and could not be created. *)
Theorem C6_stderr_logged_job_continues
    env directory_path file_path md_filename md_file_path w result :
  let docx := docx_path directory_path file_path in
  let w' := snd (process_new_file env directory_path file_path md_filename
                   md_file_path w) in
  env_run env ["powershell"; "-command"; pf_format_command file_path md_file_path]
    = inl result ->
  stderr result <> "" ->
  (LvlError, ("Command errors: " +:+ stderr result)%string) ∈ log w' /\
  PathExists (OsPath.dirname docx) ∈ calls w' /\
  (ConvertFile md_file_path "docx" docx ∈ calls w' \/
   ((OsPath.dirname docx ∉ fs w) /\
    (exists e, env_makedirs env (OsPath.dirname docx) = Some e))).
Proof.
  cbn zeta. intros Hrun Herr.
  destruct (stage2_reached env directory_path file_path md_filename md_file_path
              w result Hrun) as (Hlog & Hdir & Hconv).
  split; [|done]. apply Hlog. unfold Py.truthy.
  apply negb_true_iff, String.eqb_neq, Herr.
Qed.

Lemma C6_stderr_logged_job_continues_witness :
  let env := with_run (inl {| returncode := 0; stdout := "";
                              stderr := "WARNING: unknown element" |})
               (env_well "/tmp/tmpk3v9.md") in
  let w' := snd (process_new_file env "/srv/in" "/srv/in/config-a.xml"
                   "tmpk3v9.md" "/tmp/tmpk3v9.md"
                   (init_world {["/srv/in"; "/tmp/tmpk3v9.md"]} [])) in
  (LvlError, "Command errors: WARNING: unknown element") ∈ log w' /\
  PathExists "/srv/in" ∈ calls w' /\
  ConvertFile "/tmp/tmpk3v9.md" "docx" "/srv/in/config-a.docx" ∈ calls w'.
Proof.
  cbn zeta.
  destruct (C6_stderr_logged_job_continues
              (with_run (inl {| returncode := 0; stdout := "";
                                stderr := "WARNING: unknown element" |})
                 (env_well "/tmp/tmpk3v9.md"))
              "/srv/in" "/srv/in/config-a.xml" "tmpk3v9.md" "/tmp/tmpk3v9.md"
              (init_world {["/srv/in"; "/tmp/tmpk3v9.md"]} [])
              {| returncode := 0; stdout := ""; stderr := "WARNING: unknown element" |}
              eq_refl ltac:(discriminate))
    as (Hlog & Hdir & [Hconv|[_ [e He]]]).
  - exact (conj Hlog (conj Hdir Hconv)).
  - discriminate He.
Defined.

(** ** Watching the roots *)

Lemma grows_keep_running env : grows (keep_running env).
Proof. intros w. unfold keep_running. destruct (env_interrupt env); apply extends_refl. Qed.

(** One turn of the loop of [monitor_directory] on a root whose watch
    fails with nothing but an [OSError]. *)
Lemma schedule_all_spec env paths :
  forall w,
    (forall p e, p ∈ paths -> env_schedule env p = Some e -> is_OSError e = true) ->
    exists w',
      schedule_all env paths w = (Ret tt, w') /\
      calls w' = calls w ++ map Schedule paths /\
      watches w' = watches w ++ filter (fun p => env_schedule env p = None) paths /\
      (exists ll, log w' = log w ++ ll) /\
      (forall p e, p ∈ paths -> env_schedule env p = Some e ->
         (LvlError, ("Error monitoring directory " +:+ p +:+ ": " +:+ exn_str e)%string)
           ∈ log w').
Proof.
  induction paths as [|path rest IH]; intros w Hos.
  - exists w. cbn. rewrite !app_nil_r.
    do 3 (split; [done|]). split; [exists []; by rewrite app_nil_r|].
    intros p e Hp. by apply elem_of_nil in Hp.
  - cbn [schedule_all]. unfold bind at 1.
    unfold try_except, observer_schedule, bind. cbn [record_call].
    destruct (env_schedule env path) as [e|] eqn:Hsch.
    + cbn [raise]. rewrite (Hos path e) by (done || apply list_elem_of_here).
      cbn [logger_error logger].
      destruct (IH (add_log LvlError
                      ("Error monitoring directory " +:+ path +:+ ": " +:+ exn_str e)%string
                      (add_call (Schedule path) w)))
        as (w' & -> & Hc & Hw & [ll Hl] & Herr).
      { intros p e' Hp. apply Hos. by apply list_elem_of_further. }
      exists w'. cbn in Hc, Hw, Hl. repeat split.
      * rewrite Hc. cbn. by rewrite <- app_assoc.
      * rewrite Hw. rewrite filter_cons_False; [done|]. by rewrite Hsch.
      * rewrite Hl. rewrite <- app_assoc. eauto.
      * intros p e' Hp He'. apply elem_of_cons in Hp as [->|Hp]; [|by eapply Herr].
        rewrite Hsch in He'. injection He' as <-. rewrite Hl.
        rewrite !elem_of_app, list_elem_of_singleton. auto.
    + cbn [logger_info logger].
      destruct (IH (add_log LvlInfo
                      ("Monitoring directory: " +:+ path +:+ " (recursive)")%string
                      (add_watch path (add_call (Schedule path) w))))
        as (w' & -> & Hc & Hw & [ll Hl] & Herr).
      { intros p e' Hp. apply Hos. by apply list_elem_of_further. }
      exists w'. cbn in Hc, Hw, Hl. repeat split.
      * rewrite Hc. cbn. by rewrite <- app_assoc.
      * rewrite Hw. rewrite filter_cons_True by done. cbn. by rewrite <- app_assoc.
      * rewrite Hl. rewrite <- app_assoc. eauto.
      * intros p e' Hp He'. apply elem_of_cons in Hp as [->|Hp]; [|by eapply Herr].
        rewrite Hsch in He'. discriminate.
Qed.

(** What the [try] of lines 155-159 handles: when [observer.schedule]
    itself raises an [OSError], the failure is logged and the loop goes
    on; [observer.schedule] is called once for every root of the list,
    in order, the roots whose call returned are watched, and
    [observer.start] is called. *)
Lemma schedule_oserror_logged_and_skipped env paths w :
  (forall p e, p ∈ paths -> env_schedule env p = Some e -> is_OSError e = true) ->
  fst (schedule_all env paths w) = Ret tt /\
  calls (snd (schedule_all env paths w)) = calls w ++ map Schedule paths /\
  watches (snd (schedule_all env paths w))
    = watches w ++ filter (fun p => env_schedule env p = None) paths /\
  (forall p e, p ∈ paths -> env_schedule env p = Some e ->
     (LvlError, ("Error monitoring directory " +:+ p +:+ ": " +:+ exn_str e)%string)
       ∈ log (snd (schedule_all env paths w))) /\
  ObserverStart ∈ calls (snd (monitor_directory env paths w)).
Proof.
  intros Hos.
  destruct (schedule_all_spec env paths w Hos) as (w' & Heq & Hc & Hw & _ & Herr).
  unfold monitor_directory. unfold bind at 1. rewrite Heq. cbn [fst snd].
  do 4 (split; [done|]).
  apply elem_after_bind;
    [|pose proof (grows_keep_running env);
      unfold observer_join, observer_stop; intros; solve_grows].
  unfold observer_start, bind, record_call.
  destruct (env_start env); cbn; apply elem_of_app; right; apply list_elem_of_here.
Qed.

(** ** Start-up *)

(** The prompt makes no call other than [input] and watches nothing. *)
Lemma prompt_loop_quiet lines :
  forall acc w,
    let w' := snd (prompt_loop lines acc w) in
    (exists n, calls w' = calls w ++ replicate n (Input "Enter path: ")) /\
    watches w' = watches w /\ log w' = log w.
Proof.
  induction lines as [|line rest IH]; intros acc w; cbn zeta.
  - cbn. split; [by exists 1%nat|done].
  - cbn [prompt_loop]. unfold bind. cbn [record_call].
    destruct (Py.truthy (Py.strip line)).
    + destruct (IH (acc ++ [Py.strip line])
                  (set_stdin rest (add_call (Input "Enter path: ") w)))
        as ([n Hn] & Hw & Hl).
      cbn zeta in *. rewrite Hn, Hw, Hl. split; [|done].
      exists (S n). cbn. by rewrite <- app_assoc.
    + cbn. split; [by exists 1%nat|done].
Qed.

(** C8. When the list of roots is still empty after the configured list
    and the prompt, the start-up block logs an error and leaves through
    [exit(1)]: no root is scheduled and the observer is not started. *)
Theorem C8_no_roots_exit env configured files input w1 :
  collect_paths configured (init_world files input) = (Ret [], w1) ->
  fst (main env configured (init_world files input))
    = Raise {| exn_cls := SystemExit 1; exn_str := "1" |} /\
  (LvlError, "No directories provided to monitor. Exiting.")
    ∈ log (final (main env configured) files input) /\
  (ObserverStart ∉ calls (final (main env configured) files input)) /\
  (forall p, Schedule p ∉ calls (final (main env configured) files input)) /\
  watches (final (main env configured) files input) = [].
Proof.
  intros Hcol.
  assert (Hmain : main env configured (init_world files input)
                  = (Raise {| exn_cls := SystemExit 1; exn_str := "1" |},
                     add_log LvlError "No directories provided to monitor. Exiting." w1)).
  { unfold main. unfold bind at 1. by rewrite Hcol. }
  unfold final. rewrite Hmain. cbn [fst snd add_log log calls watches].
  unfold collect_paths in Hcol.
  assert (Hq : (exists n, calls w1 = replicate n (Input "Enter path: ")) /\
               watches w1 = []).
  { destruct configured; [|by inversion Hcol]. cbn in Hcol.
    unfold bind, prompt_paths in Hcol. cbn in Hcol.
    match type of Hcol with
    | context [prompt_loop ?l ?a ?w] =>
        destruct (prompt_loop_quiet l a w) as ([n Hn] & Hw & _);
        destruct (prompt_loop l a w) as [[ps| |] w2]
    end; inversion Hcol; subst. cbn in Hn, Hw. eauto. }
  destruct Hq as [[n Hn] Hw].
  split; [done|]. split; [apply elem_of_app; right; apply list_elem_of_here|].
  split; [|split; [|done]].
  - rewrite Hn. intros Hin. apply elem_of_replicate in Hin as [? _]. discriminate.
  - intros p. rewrite Hn. intros Hin.
    apply elem_of_replicate in Hin as [? _]. discriminate.
Qed.

Lemma C8_no_roots_exit_witness :
  fst (main (env_well "/tmp/tmpk3v9.md") [] (init_world ∅ ["   "; "/srv/in"]))
    = Raise {| exn_cls := SystemExit 1; exn_str := "1" |} /\
  (ObserverStart ∉ calls (final (main (env_well "/tmp/tmpk3v9.md") []) ∅ ["   "; "/srv/in"])).
Proof.
  destruct (C8_no_roots_exit (env_well "/tmp/tmpk3v9.md") [] ∅ ["   "; "/srv/in"] _ eq_refl)
    as (Hexit & _ & Hstart & _).
  exact (conj Hexit Hstart).
Defined.

(** ** When the temporary file is removed *)

(** Membership in a list of calls built by appending. *)
Ltac split_calls :=
  repeat first
    [ rewrite elem_of_app | rewrite list_elem_of_singleton | rewrite elem_of_cons
    | rewrite elem_of_nil ].

(** X7. [os.remove] is called on the temporary file exactly when stage 1
    returned a completed process, the output directory was there or
    could be created, and stage 2 returned: every other way out of
    [process_new_file] skips it. *)
Lemma remove_called_iff env directory_path file_path md_filename md_file_path w :
  let docx := docx_path directory_path file_path in
  let w' := snd (process_new_file env directory_path file_path md_filename
                   md_file_path w) in
  (Remove md_file_path ∉ calls w) ->
  Remove md_file_path ∈ calls w' <->
  (exists r, env_run env ["powershell"; "-command";
                          pf_format_command file_path md_file_path] = inl r) /\
  (OsPath.dirname docx ∈ fs w \/ env_makedirs env (OsPath.dirname docx) = None) /\
  (exists out, conv_result (env_convert env md_file_path "docx" docx) = inl out).
Proof.
  cbn zeta. intros Hw.
  unfold process_new_file, run_pf_format, ensure_directory, run_pandoc,
    delete_temporary, subprocess_run, path_exists, makedirs, convert_file,
    os_remove, try_except, bind.
  cbn [logger_info logger_debug logger_error logger record_call ret raise].
  cbn beta.
  destruct (env_convert env md_file_path "docx" _) as [cres cw].
  cbn [conv_result conv_wrote].
  destruct (env_run env _) as [r|e1] eqn:Hrun; cbn.
  2: { destruct (is_CalledProcessError e1); cbn; split_calls;
       (split; [intros [?|?]; [done|discriminate] | intros ([r Hr] & _); discriminate]). }
  destruct (Py.truthy (stderr r)); cbn.
  all: case_bool_decide as Hin; cbn in Hin |- *.
  all: try (destruct (env_makedirs env _) as [e2|] eqn:Hmk; cbn;
            [destruct (is_OSError e2); cbn|]).
  all: destruct cw; cbn.
  all: destruct cres as [out|e3]; cbn;
         [destruct (String.eqb out ""); cbn | destruct (is_Exception e3); cbn].
  all: try (destruct (env_remove env _) as [e4|]; cbn; [destruct (is_OSError e4); cbn|]).
  all: split_calls.
  all: split; [intros H | intros (Hr & Hd & Ho)].
  all: try (repeat split; eauto; fail).
  all: try (destruct Ho as [? Ho]; discriminate).
  all: try (destruct Hd as [Hd|Hd]; [done|discriminate]).
  all: try (intuition (try discriminate; eauto); fail).
Qed.

(** ** Runs in which the temporary file or the abort is missed *)

(** Closed statements about sets and lists are decided by evaluation. *)
Ltac by_evaluation :=
  cbn zeta;
  match goal with |- ?P => apply (@bool_decide_unpack P _) end;
  vm_compute; exact I.

(** C1. The temporary file is removed only at the end of
    [process_new_file] (lines 139-144); the exits before it leave the
    file on disk.  Here stage 1 cannot be started (PowerShell is not
    installed) and, in a second run, the output directory cannot be
    created: both times the temporary file is still there when the
    handler returns, and [os.remove] was never called. *)
Theorem C1_temporary_file_left_behind :
  let tmp := "/tmp/tmpk3v9.md" in
  let w1 :=
    final (on_created
             (with_run (inr (os_error "[WinError 2] The system cannot find the file specified"))
                (env_well tmp))
             {| src_path := "/srv/in/config-a.xml"; is_directory := false |})
      {["/srv/in"; "/srv/in/config-a.xml"]} [] in
  let w2 :=
    final (on_created
             (with_makedirs (Some (os_error "[Errno 13] Permission denied: 'in/in'"))
                (env_well tmp))
             {| src_path := "in/config-a.xml"; is_directory := false |})
      {["in"; "in/config-a.xml"]} [] in
  (NamedTemporaryFile ∈ calls w1 /\ tmp ∈ fs w1 /\ (Remove tmp ∉ calls w1)) /\
  (NamedTemporaryFile ∈ calls w2 /\ tmp ∈ fs w2 /\ (Remove tmp ∉ calls w2)).
Proof. by_evaluation. Qed.

(** C2. [subprocess.run] is called without [check=True], so a process
    that ends with a non-zero status raises nothing: the handler of
    [CalledProcessError] at lines 109-111 is never entered, stage 2 is
    run and the final document is written.  When the process cannot be
    started at all, the [OSError] is not caught in [process_new_file]
    either: stage 2 is skipped, and so is the removal of the temporary
    file (see [remove_called_iff]). *)
Theorem C2_failed_process_not_aborted :
  let tmp := "/tmp/tmpk3v9.md" in
  let event := {| src_path := "/srv/in/config-a.xml"; is_directory := false |} in
  let files : gset string := {["/srv/in"; "/srv/in/config-a.xml"]} in
  let w1 :=
    final (on_created
             (with_run (inl {| returncode := 1; stdout := "";
                               stderr := "pf-format : cannot parse the input" |})
                (env_well tmp)) event) files [] in
  let w2 :=
    final (on_created
             (with_run (inr (os_error "[WinError 2] The system cannot find the file specified"))
                (env_well tmp)) event) files [] in
  (ConvertFile tmp "docx" "/srv/in/config-a.docx" ∈ calls w1 /\
   "/srv/in/config-a.docx" ∈ fs w1 /\
   (LvlInfo, "Conversion to DOCX successful: /srv/in/config-a.docx") ∈ log w1) /\
  ((ConvertFile tmp "docx" "/srv/in/config-a.docx" ∉ calls w2) /\
   (Remove tmp ∉ calls w2) /\ tmp ∈ fs w2).
Proof. by_evaluation. Qed.

(** C4. When stage 2 raises, [process_new_file] returns at line 137,
    before the removal of the temporary file; when it returns a
    non-empty diagnostic instead, the error is logged and the file is
    removed. *)
Theorem C4_stage2_exception_keeps_temporary_file :
  let tmp := "/tmp/tmpk3v9.md" in
  let event := {| src_path := "/srv/in/config-a.xml"; is_directory := false |} in
  let files : gset string := {["/srv/in"; "/srv/in/config-a.xml"]} in
  let w1 :=
    final (on_created
             (with_convert
                {| conv_result := inr (other_error "Pandoc died with exitcode 1");
                   conv_wrote := false |}
                (env_well tmp)) event) files [] in
  let w2 :=
    final (on_created
             (with_convert
                {| conv_result := inl "could not write the document";
                   conv_wrote := false |}
                (env_well tmp)) event) files [] in
  (ConvertFile tmp "docx" "/srv/in/config-a.docx" ∈ calls w1 /\
   tmp ∈ fs w1 /\ (Remove tmp ∉ calls w1) /\ ("/srv/in/config-a.docx" ∉ fs w1)) /\
  (Remove tmp ∈ calls w2 /\ (tmp ∉ fs w2)).
Proof. by_evaluation. Qed.

(** C5. The output path is [join(directory_path, splitext(file_path)[0]
    + '.docx')] with the whole source path, not the file name, under
    [splitext]: for a relative source path the directory is counted
    twice, and the document is written to a directory below the one of
    the source, which is created for it. *)
Theorem C5_relative_source_output_path :
  let tmp := "/tmp/tmpk3v9.md" in
  let p := "data/config-a.xml" in
  let w := final (on_created (env_well tmp) {| src_path := p; is_directory := false |})
             {["data"; "data/config-a.xml"]} [] in
  docx_path (OsPath.dirname p) p = "data/data/config-a.docx" /\
  OsPath.join (OsPath.dirname p)
    (fst (OsPath.splitext (OsPath.basename p)) +:+ ".docx")%string
    = "data/config-a.docx" /\
  Makedirs "data/data" ∈ calls w /\
  ConvertFile tmp "docx" "data/data/config-a.docx" ∈ calls w /\
  ("data/config-a.docx" ∉ fs w).
Proof. by_evaluation. Qed.

(** C7. The [try] of lines 155-159 is around [observer.schedule], which
    registers a root with an observer that is not running yet; the
    watches are set up by [observer.start] (line 161), outside every
    [try].  For a root that does not exist the calls to [schedule] all
    return and each root is logged as monitored; the [OSError] comes
    from [observer.start] and leaves [monitor_directory] and the
    start-up block: no error is logged, the missing root is not left
    out, and the observer is neither waited on nor stopped, so no root
    ends up watched.  Only an [OSError] raised by [observer.schedule]
    itself is logged and skipped. *)
Theorem C7_missing_root_ends_watcher :
  let missing := os_error "[Errno 2] No such file or directory: '/missing'" in
  let roots := ["/srv/a"; "/missing"; "/srv/b"] in
  let env := with_start (Some missing) (env_well "/tmp/tmpk3v9.md") in
  let r := monitor_directory env roots (init_world {["/srv/a"; "/srv/b"]} []) in
  let env' := with_schedule
                (fun p => if String.eqb p "/missing" then Some missing else None)
                (env_well "/tmp/tmpk3v9.md") in
  let r' := monitor_directory env' roots (init_world {["/srv/a"; "/srv/b"]} []) in
  (fst r = Raise missing /\
   calls (snd r)
     = [Schedule "/srv/a"; Schedule "/missing"; Schedule "/srv/b"; ObserverStart] /\
   watches (snd r) = roots /\
   log (snd r)
     = [(LvlInfo, "Monitoring directory: /srv/a (recursive)");
        (LvlInfo, "Monitoring directory: /missing (recursive)");
        (LvlInfo, "Monitoring directory: /srv/b (recursive)")]) /\
  fst (main env roots (init_world {["/srv/a"; "/srv/b"]} [])) = Raise missing /\
  (fst r' = Ret tt /\
   watches (snd r') = ["/srv/a"; "/srv/b"] /\
   (LvlError,
    "Error monitoring directory /missing: [Errno 2] No such file or directory: '/missing'")
     ∈ log (snd r')).
Proof.
  cbn zeta. repeat split; try (vm_compute; reflexivity). by_evaluation.
Qed.

(** * Further properties of the handler, the job, the watcher and the sweep *)

(** ** No error leaves the handler *)

(** X1. Whatever the collaborators answer, no exception of class
    [Exception] leaves the handler: an exception it lets through is no
    [Exception] (an interrupt). *)
Theorem on_created_contains_errors env event w :
  match fst (on_created env event w) with
  | Raise e => is_Exception e = false
  | _ => True
  end.
Proof.
  unfold on_created, handle_candidate. cbn zeta.
  destruct (is_directory event); [done|].
  destruct (Py.endswith (Py.lower _) ".docx"); [done|].
  destruct (_ && _); [|done].
  cbn [negb]. unfold bind at 1 2 3. cbn [logger_debug logger_info logger].
  unfold try_except.
  match goal with |- context [bind ?m ?k ?w0] =>
    destruct (bind m k w0) as [[[]|e|] w']
  end; [done| |done].
  destruct (is_Exception e) eqn:He; [done|exact He].
Qed.

(** ** The ways a job ends *)

(** Membership in a file system written with unions and differences. *)
Ltac fs_solve :=
  intros;
  repeat first
    [ rewrite elem_of_difference | rewrite elem_of_union
    | rewrite elem_of_singleton ];
  intuition (eauto; congruence).

(** Finds a record in a list written out, or at the end of an appended one. *)
Ltac find_elem :=
  repeat first
    [ apply list_elem_of_here | apply list_elem_of_further
    | apply elem_of_app; right ].

(** The four tests behind a job. *)
Lemma job_created_tests env event files input :
  job_created env event files input ->
  is_directory event = false /\
  Py.endswith (Py.lower (OsPath.basename (src_path event))) ".docx" = false /\
  Py.endswith (Py.lower (OsPath.basename (src_path event))) ".xml" = true /\
  Py.startswith (OsPath.basename (src_path event)) "config-" = true.
Proof.
  intros Hj. pose proof (on_created_cases env event files input) as H.
  cbn zeta in H.
  destruct (is_directory event);
    destruct (Py.endswith (Py.lower _) ".docx");
    destruct (Py.endswith (Py.lower _) ".xml");
    destruct (Py.startswith _ "config-"); cbn [negb andb] in H;
    try done; exfalso; revert Hj; by apply rejected_no_job.
Qed.

(** X2. When the temporary file cannot be allocated, the job ends there:
    the failure is logged, the handler returns, no process is started,
    no conversion is attempted and the file system is left as it was. *)
Theorem temp_allocation_failure_ends_job env event files input e :
  job_created env event files input ->
  env_tempfile env = inr e ->
  is_Exception e = true ->
  fst (on_created env event (init_world files input)) = Ret tt /\
  calls (final (on_created env event) files input) = [NamedTemporaryFile] /\
  fs (final (on_created env event) files input) = files /\
  (LvlError, ("Error while creating temporary .md file: " +:+ exn_str e)%string)
    ∈ log (final (on_created env event) files input).
Proof.
  intros Hj Htmp He. apply job_created_tests in Hj as (Hd & Hx & Hm & Hp).
  unfold final, on_created, handle_candidate, named_temporary_file,
    try_except, bind.
  cbn zeta. rewrite Hd, Hx, Hm, Hp, Htmp. cbn. rewrite He. cbn.
  do 3 (split; [done|]). find_elem.
Qed.

Lemma temp_allocation_failure_ends_job_witness :
  let env := {| env_tempfile := inr (os_error "[Errno 28] No space left on device");
                env_run := env_run (env_well "");
                env_makedirs := fun _ => None;
                env_convert := env_convert (env_well "");
                env_remove := fun _ => None;
                env_schedule := fun _ => None;
                env_start := None;
                env_interrupt := true |} in
  let event := {| src_path := "/srv/in/config-a.xml"; is_directory := false |} in
  calls (final (on_created env event) {["/srv/in"]} []) = [NamedTemporaryFile] /\
  fs (final (on_created env event) {["/srv/in"]} []) = {["/srv/in"]}.
Proof.
  cbn zeta.
  match goal with |- calls (final (on_created ?env ?ev) ?f ?i) = _ /\ _ =>
    destruct (temp_allocation_failure_ends_job env ev f i
                (os_error "[Errno 28] No space left on device"))
      as (_ & Hc & Hf & _)
  end.
  - by_evaluation.
  - reflexivity.
  - reflexivity.
  - exact (conj Hc Hf).
Defined.

(** X3. An exception of [subprocess.run] that is no
    [CalledProcessError] (PowerShell cannot be started) is not handled
    in [process_new_file]: it reaches the handler of [on_created], which
    reports it under the message of the temporary file; the handler
    returns, stage 2 is not run, and the temporary file stays. *)
Theorem spawn_failure_reported_by_handler env event files input tmp e :
  job_created env event files input ->
  env_tempfile env = inl tmp ->
  env_run env ["powershell"; "-command"; pf_format_command (src_path event) tmp]
    = inr e ->
  is_Exception e = true ->
  is_CalledProcessError e = false ->
  fst (on_created env event (init_world files input)) = Ret tt /\
  calls (final (on_created env event) files input)
    = [NamedTemporaryFile;
       SubprocessRun ["powershell"; "-command";
                      pf_format_command (src_path event) tmp]] /\
  tmp ∈ fs (final (on_created env event) files input) /\
  (LvlError, ("Error while creating temporary .md file: " +:+ exn_str e)%string)
    ∈ log (final (on_created env event) files input).
Proof.
  intros Hj Htmp Hrun He Hc. apply job_created_tests in Hj as (Hd & Hx & Hm & Hp).
  unfold final, on_created, handle_candidate, named_temporary_file,
    process_new_file, run_pf_format, subprocess_run, try_except, bind.
  cbn zeta. rewrite Hd, Hx, Hm, Hp, Htmp. cbn. rewrite Hrun. cbn.
  rewrite Hc, He. cbn.
  split; [done|]. split; [done|]. split; [fs_solve|]. find_elem.
Qed.

Lemma spawn_failure_reported_by_handler_witness :
  let env := with_run (inr (os_error "[WinError 2] The system cannot find the file specified"))
               (env_well "/tmp/tmpk3v9.md") in
  let event := {| src_path := "/srv/in/config-a.xml"; is_directory := false |} in
  fst (on_created env event (init_world {["/srv/in"]} [])) = Ret tt /\
  "/tmp/tmpk3v9.md" ∈ fs (final (on_created env event) {["/srv/in"]} []).
Proof.
  cbn zeta.
  match goal with |- fst (on_created ?env ?ev (init_world ?f ?i)) = _ /\ _ =>
    destruct (spawn_failure_reported_by_handler env ev f i "/tmp/tmpk3v9.md"
                (os_error "[WinError 2] The system cannot find the file specified"))
      as (Hr & _ & Hf & _)
  end.
  - by_evaluation.
  - reflexivity.
  - reflexivity.
  - reflexivity.
  - reflexivity.
  - exact (conj Hr Hf).
Defined.

Lemma ancestors_self (d : string) : d <> "" -> d ∈ ancestors (String.length d) d.
Proof.
  destruct d as [|a d]; [done|]. intros _. cbn.
  apply elem_of_union. left. by apply elem_of_singleton.
Qed.

(** The run of [process_new_file] in which every step succeeds. *)
Lemma process_new_file_success env directory_path file_path md_filename md_file_path w r :
  let docx := docx_path directory_path file_path in
  let res := process_new_file env directory_path file_path md_filename
               md_file_path w in
  env_run env ["powershell"; "-command"; pf_format_command file_path md_file_path]
    = inl r ->
  OsPath.dirname docx ∈ fs w \/ env_makedirs env (OsPath.dirname docx) = None ->
  env_convert env md_file_path "docx" docx
    = {| conv_result := inl ""; conv_wrote := true |} ->
  env_remove env md_file_path = None ->
  md_file_path <> docx ->
  fst res = Ret tt /\
  docx ∈ fs (snd res) /\
  (md_file_path ∉ fs (snd res)) /\
  (forall q, q ∈ fs w -> q <> md_file_path -> q ∈ fs (snd res)) /\
  (LvlInfo, ("Conversion to DOCX successful: " +:+ docx)%string) ∈ log (snd res).
Proof.
  cbn zeta. intros Hrun Hdir Hconv Hrm Hne.
  unfold process_new_file, run_pf_format, ensure_directory, run_pandoc,
    delete_temporary, subprocess_run, path_exists, makedirs, convert_file,
    os_remove, try_except, bind.
  cbn [logger_info logger_debug logger_error logger record_call ret raise].
  cbn beta. rewrite Hrun, Hconv, Hrm. cbn.
  destruct (Py.truthy (stderr r)); cbn.
  all: case_bool_decide as Hin; cbn in Hin |- *;
         [|destruct Hdir as [Hd|Hd]; [done|rewrite Hd; cbn]].
  all: split; [done|]; split; [fs_solve|]; split; [fs_solve|];
         split; [fs_solve|].
  all: rewrite !elem_of_app, !list_elem_of_singleton; tauto.
Qed.

(** The output path of a source named [f] in the absolute directory [d]. *)
Lemma docx_path_under (directory_path d f : string) :
  Py.startswith d "/" = true ->
  Py.contains OsPath.sep f = false ->
  docx_path directory_path (d +:+ String OsPath.sep f)
  = (d +:+ String OsPath.sep (fst (OsPath.splitext f) +:+ ".docx"))%string.
Proof.
  intros Habs Hf. destruct d as [|a d']; [done|].
  assert (a = "/"%char) as ->.
  { simpl in Habs. apply andb_true_iff in Habs as [Ha _]. by apply Ascii.eqb_eq. }
  rewrite append_cons, docx_path_absolute. rewrite <- append_cons.
  rewrite splitext_under by done. cbn [fst].
  by rewrite !append_assoc, !append_cons.
Qed.

(** The handler on an accepted event whose temporary file could be
    allocated: what is left is the run of [process_new_file]. *)
Lemma on_created_accepted env event files input tmp :
  job_created env event files input ->
  env_tempfile env = inl tmp ->
  exists w1,
    fs w1 = files ∪ {[tmp]} /\
    on_created env event (init_world files input)
    = match process_new_file env (OsPath.dirname (src_path event)) (src_path event)
              (OsPath.basename tmp) tmp w1 with
      | (Raise e, w2) =>
          if is_Exception e
          then (Ret tt,
                add_log LvlError
                  ("Error while creating temporary .md file: " +:+ exn_str e)%string w2)
          else (Raise e, w2)
      | r => r
      end.
Proof.
  intros Hj Htmp. apply job_created_tests in Hj as (Hd & Hx & Hm & Hp).
  unfold on_created, handle_candidate. cbn zeta. rewrite Hd, Hx, Hm, Hp.
  cbn [negb andb]. unfold bind at 1 2 3. cbn [logger_debug logger_info logger].
  unfold try_except. unfold bind at 1 2. unfold named_temporary_file.
  unfold bind at 1. cbn [record_call]. rewrite Htmp. cbn [logger_info logger].
  eexists. split; [|reflexivity]. done.
Qed.

(** X4. A configuration file created in an absolute directory, with
    every step of the job succeeding (the temporary file is allocated,
    the process can be run, the directory is there or can be created,
    pypandoc writes the document and returns the empty string, the
    temporary file can be removed): the handler returns, the document
    exists next to the source under the same base name, the temporary
    file is gone and no other file was removed. *)
Theorem accepted_file_converted_in_place env (d f : string) files input tmp r :
  let p := (d +:+ String OsPath.sep f)%string in
  let docx := (d +:+ String OsPath.sep (fst (OsPath.splitext f) +:+ ".docx"))%string in
  let res := on_created env {| src_path := p; is_directory := false |}
               (init_world files input) in
  Py.startswith d "/" = true ->
  Py.endswith d "/" = false ->
  Py.contains OsPath.sep f = false ->
  Py.startswith f "config-" = true ->
  Py.endswith (Py.lower f) ".xml" = true ->
  env_tempfile env = inl tmp ->
  env_run env ["powershell"; "-command"; pf_format_command p tmp] = inl r ->
  d ∈ files \/ env_makedirs env d = None ->
  env_convert env tmp "docx" docx = {| conv_result := inl ""; conv_wrote := true |} ->
  env_remove env tmp = None ->
  tmp <> docx ->
  fst res = Ret tt /\
  docx ∈ fs (snd res) /\
  (tmp ∉ fs (snd res)) /\
  (forall q, q ∈ files -> q <> tmp -> q ∈ fs (snd res)).
Proof.
  cbn zeta. intros Habs Hend Hf Hpre Hxml Htmp Hrun Hdir Hconv Hrm Hne.
  assert (Hdne : d <> "") by (by destruct d).
  assert (Hj : job_created env
                 {| src_path := (d +:+ String OsPath.sep f)%string;
                    is_directory := false |} files input).
  { pose proof (on_created_cases env
                  {| src_path := (d +:+ String OsPath.sep f)%string;
                     is_directory := false |} files input) as H.
    cbn [src_path is_directory] in H. cbn zeta in H.
    rewrite basename_app in H by done.
    by rewrite Hpre, Hxml, (endswith_xml_not_docx _ Hxml) in H. }
  destruct (on_created_accepted env _ files input tmp Hj Htmp) as (w1 & Hfs & ->).
  cbn [src_path]. rewrite (dirname_under d f Hf Hdne Hend).
  assert (Hstem : Py.contains OsPath.sep (fst (OsPath.splitext f) +:+ ".docx") = false)
    by (by rewrite contains_app, (splitext_fst_no_sep f Hf)).
  pose proof (docx_path_under d d f Habs Hf) as Hdocx.
  destruct (process_new_file_success env d (d +:+ String OsPath.sep f)%string
              (OsPath.basename tmp) tmp w1 r) as (Hr & Hin & Hout & Hkeep & _).
  - exact Hrun.
  - rewrite Hdocx, (dirname_under d _ Hstem Hdne Hend), Hfs.
    destruct Hdir as [Hdir|Hdir]; [left|by right].
    apply elem_of_union. by left.
  - by rewrite Hdocx.
  - exact Hrm.
  - by rewrite Hdocx.
  - rewrite Hdocx in Hin.
    destruct (process_new_file _ _ _ _ _ _) as [o w2]. cbn [fst snd] in *.
    subst o. do 3 (split; [done|]).
    intros q Hq Hqt. apply Hkeep; [|done]. rewrite Hfs.
    apply elem_of_union. by left.
Qed.

Lemma accepted_file_converted_in_place_witness :
  let res := on_created (env_well "/tmp/tmpk3v9.md")
               {| src_path := "/srv/in/config-alpha.xml"; is_directory := false |}
               (init_world {["/srv/in"; "/srv/in/config-alpha.xml"]} []) in
  "/srv/in/config-alpha.docx" ∈ fs (snd res) /\ ("/tmp/tmpk3v9.md" ∉ fs (snd res)) /\
  "/srv/in/config-alpha.xml" ∈ fs (snd res).
Proof.
  cbn zeta.
  destruct (accepted_file_converted_in_place (env_well "/tmp/tmpk3v9.md")
              "/srv/in" "config-alpha.xml" {["/srv/in"; "/srv/in/config-alpha.xml"]} []
              "/tmp/tmpk3v9.md" {| returncode := 0; stdout := "ok"; stderr := "" |})
    as (_ & Hdocx & Htmp & Hkeep); try reflexivity.
  - left. by_evaluation.
  - discriminate.
  - split; [exact Hdocx|]. split; [exact Htmp|].
    apply Hkeep; [by_evaluation|discriminate].
Defined.

(** X5. A failure of [os.remove] with an [OSError] is logged and goes no
    further: [process_new_file] still returns and logs its last line;
    the temporary file, if it was there, stays, and a document that
    stage 2 wrote is kept. *)
Theorem cleanup_failure_not_escalated
    env directory_path file_path md_filename md_file_path w r out e :
  let docx := docx_path directory_path file_path in
  let res := process_new_file env directory_path file_path md_filename
               md_file_path w in
  env_run env ["powershell"; "-command"; pf_format_command file_path md_file_path]
    = inl r ->
  OsPath.dirname docx ∈ fs w \/ env_makedirs env (OsPath.dirname docx) = None ->
  conv_result (env_convert env md_file_path "docx" docx) = inl out ->
  env_remove env md_file_path = Some e ->
  is_OSError e = true ->
  fst res = Ret tt /\
  (md_file_path ∈ fs w -> md_file_path ∈ fs (snd res)) /\
  (conv_wrote (env_convert env md_file_path "docx" docx) = true ->
   docx ∈ fs (snd res)) /\
  (LvlError, ("Error deleting temporary .md file: " +:+ exn_str e)%string)
    ∈ log (snd res) /\
  (LvlInfo, "Monitoring folder...") ∈ log (snd res).
Proof.
  cbn zeta. intros Hrun Hdir Hconv Hrm He.
  unfold process_new_file, run_pf_format, ensure_directory, run_pandoc,
    delete_temporary, subprocess_run, path_exists, makedirs, convert_file,
    os_remove, try_except, bind.
  cbn [logger_info logger_debug logger_error logger record_call ret raise].
  cbn beta. revert Hconv.
  destruct (env_convert env md_file_path "docx" _) as [cres cw].
  cbn [conv_result conv_wrote]. intros ->.
  rewrite Hrun, Hrm. cbn.
  destruct (Py.truthy (stderr r)); cbn.
  all: case_bool_decide as Hin; cbn in Hin |- *;
         [|destruct Hdir as [Hd|Hd]; [done|rewrite Hd; cbn]].
  all: destruct cw; cbn; destruct (String.eqb out ""); cbn; rewrite He; cbn.
  all: split; [done|]; split; [fs_solve|]; split; [fs_solve|].
  all: rewrite !elem_of_app, !list_elem_of_singleton; tauto.
Qed.

Lemma cleanup_failure_not_escalated_witness :
  let env := {| env_tempfile := inl "/tmp/tmpk3v9.md";
                env_run := env_run (env_well "");
                env_makedirs := fun _ => None;
                env_convert := env_convert (env_well "");
                env_remove := fun _ => Some (os_error "[WinError 32] The process cannot access the file");
                env_schedule := fun _ => None;
                env_start := None;
                env_interrupt := true |} in
  let res := process_new_file env "/srv/in" "/srv/in/config-a.xml" "tmpk3v9.md"
               "/tmp/tmpk3v9.md"
               (init_world {["/srv/in"; "/tmp/tmpk3v9.md"]} []) in
  fst res = Ret tt /\ "/tmp/tmpk3v9.md" ∈ fs (snd res) /\
  "/srv/in/config-a.docx" ∈ fs (snd res).
Proof.
  cbn zeta.
  match goal with |- fst (process_new_file ?env ?d ?p ?n ?t ?w) = _ /\ _ =>
    destruct (cleanup_failure_not_escalated env d p n t w
                {| returncode := 0; stdout := "ok"; stderr := "" |} ""
                (os_error "[WinError 32] The process cannot access the file"))
      as (Hr & Htmp & Hdocx & _)
  end.
  - reflexivity.
  - left. by_evaluation.
  - reflexivity.
  - reflexivity.
  - reflexivity.
  - split; [exact Hr|]. split; [apply Htmp; by_evaluation|].
    apply Hdocx. reflexivity.
Defined.

(** X6. When the directory step lets the job go on to stage 2, the
    directory of the output path exists: it was there, or [os.makedirs]
    has just created it. *)
Theorem output_directory_exists_for_stage2 env docx w :
  OsPath.dirname docx <> "" ->
  fst (ensure_directory env docx w) = Ret FallThrough ->
  OsPath.dirname docx ∈ fs (snd (ensure_directory env docx w)).
Proof.
  intros Hne. unfold ensure_directory, path_exists, makedirs, try_except, bind.
  cbn [record_call ret]. case_bool_decide as Hin; cbn in Hin |- *; [done|].
  destruct (env_makedirs env _) as [e|]; cbn.
  - destruct (is_OSError e); cbn; discriminate.
  - intros _. apply elem_of_union. right. by apply ancestors_self.
Qed.

Lemma output_directory_exists_for_stage2_witness :
  "data/data" ∈ fs (snd (ensure_directory (env_well "/tmp/tmpk3v9.md")
                           "data/data/config-a.docx" (init_world {["data"]} []))).
Proof.
  apply (output_directory_exists_for_stage2 (env_well "/tmp/tmpk3v9.md")
           "data/data/config-a.docx" (init_world {["data"]} []));
    [discriminate|reflexivity].
Defined.

Lemma remove_called_iff_witness :
  Remove "/tmp/tmpk3v9.md"
    ∈ calls (snd (process_new_file (env_well "/tmp/tmpk3v9.md") "/srv/in"
                    "/srv/in/config-a.xml" "tmpk3v9.md" "/tmp/tmpk3v9.md"
                    (init_world {["/srv/in"]} []))).
Proof.
  apply (remove_called_iff (env_well "/tmp/tmpk3v9.md") "/srv/in"
           "/srv/in/config-a.xml" "tmpk3v9.md" "/tmp/tmpk3v9.md"
           (init_world {["/srv/in"]} [])).
  - apply not_elem_of_nil.
  - split; [by eexists|]. split; [left; by_evaluation|by eexists].
Defined.

Lemma docx_path_adjacent_witness :
  docx_path (OsPath.dirname "/srv/in/config-a.xml") "/srv/in/config-a.xml"
  = OsPath.join (OsPath.dirname "/srv/in/config-a.xml")
      (fst (OsPath.splitext (OsPath.basename "/srv/in/config-a.xml")) +:+ ".docx")%string.
Proof.
  apply (docx_path_adjacent "/srv/in" "config-a.xml"); reflexivity.
Defined.

(** ** The document the job writes is no source of a job *)

Lemma basename_app_tail (u v : string) :
  Py.contains OsPath.sep v = false ->
  OsPath.basename (u +:+ v) = (OsPath.basename u +:+ v)%string.
Proof.
  intros Hv. destruct (Py.contains OsPath.sep u) eqn:Hu.
  - destruct (contains_last_split _ _ Hu) as (a & b & -> & Hb).
    rewrite append_assoc, append_cons, !basename_app; [done|done|].
    by rewrite contains_app, Hb, Hv.
  - rewrite (basename_bare u Hu). apply basename_bare.
    by rewrite contains_app, Hu, Hv.
Qed.

Lemma join_tail (a s t : string) :
  exists x, OsPath.join a (s +:+ t) = (x +:+ t)%string.
Proof.
  unfold OsPath.join. destruct (Py.startswith _ _); [by exists s|].
  destruct (_ || _).
  - exists (a +:+ s)%string. by rewrite append_assoc.
  - exists (a +:+ String OsPath.sep "" +:+ s)%string. by rewrite !append_assoc.
Qed.

(** X10. The path the job writes its document to never creates a job
    itself: an event for it is turned down, whatever the source path
    was, so the handler does not react to its own output. *)
Theorem output_never_creates_job env directory_path file_path b files input :
  ~ job_created env
      {| src_path := docx_path directory_path file_path; is_directory := b |}
      files input.
Proof.
  intros Hj. apply job_created_tests in Hj as (_ & Hdocx & _ & _).
  cbn [src_path] in Hdocx. unfold docx_path in Hdocx.
  destruct (join_tail directory_path (fst (OsPath.splitext file_path)) ".docx")
    as [x Hx].
  rewrite Hx, basename_app_tail, lower_app in Hdocx by done.
  change (Py.lower ".docx") with ".docx" in Hdocx.
  by rewrite endswith_app in Hdocx.
Qed.

(** ** The prompt *)

Lemma prompt_loop_step (l : string) (lines : list string) acc w :
  Py.strip l <> "" ->
  prompt_loop (l :: lines) acc w
  = prompt_loop lines (acc ++ [Py.strip l])
      (set_stdin lines (add_call (Input "Enter path: ") w)).
Proof.
  intros Hl. cbn [prompt_loop]. unfold bind at 1 2. cbn [record_call].
  assert (Ht : Py.truthy (Py.strip l) = true)
    by (unfold Py.truthy; by apply negb_true_iff, String.eqb_neq).
  by rewrite Ht.
Qed.

(** X11. The prompt keeps the lines entered before the first blank one,
    each stripped of its surrounding white space and in the order
    entered, after the paths it started with; it reads the blank line
    and nothing after it. *)
Theorem prompt_collects_until_blank (lines : list string) blank rest acc w :
  Forall (fun l => Py.strip l <> "") lines ->
  Py.strip blank = "" ->
  fst (prompt_loop (lines ++ blank :: rest) acc w)
    = Ret (acc ++ map Py.strip lines) /\
  stdin (snd (prompt_loop (lines ++ blank :: rest) acc w)) = rest /\
  calls (snd (prompt_loop (lines ++ blank :: rest) acc w))
    = calls w ++ replicate (S (length lines)) (Input "Enter path: ").
Proof.
  intros Hlines Hblank. revert acc w.
  induction Hlines as [|l lines Hl _ IH]; intros acc w.
  - cbn [app prompt_loop]. unfold bind. cbn [record_call].
    rewrite Hblank. cbn. by rewrite app_nil_r.
  - cbn [app]. rewrite prompt_loop_step by done.
    destruct (IH (acc ++ [Py.strip l])
                (set_stdin (lines ++ blank :: rest)
                   (add_call (Input "Enter path: ") w))) as (Hr & Hs & Hc).
    rewrite Hr, Hs, Hc. cbn. by rewrite <- !app_assoc.
Qed.

Lemma prompt_collects_until_blank_witness :
  fst (prompt_loop ["  /srv/in "; "data"; "  "; "/never/read"] []
         (init_world ∅ ["  /srv/in "; "data"; "  "; "/never/read"]))
    = Ret ["/srv/in"; "data"] /\
  stdin (snd (prompt_loop ["  /srv/in "; "data"; "  "; "/never/read"] []
                (init_world ∅ ["  /srv/in "; "data"; "  "; "/never/read"])))
    = ["/never/read"].
Proof.
  destruct (prompt_collects_until_blank ["  /srv/in "; "data"] "  "
              ["/never/read"] []
              (init_world ∅ ["  /srv/in "; "data"; "  "; "/never/read"]))
    as (Hr & Hs & _).
  - repeat constructor; discriminate.
  - reflexivity.
  - exact (conj Hr Hs).
Defined.

Lemma prompt_loop_eof (lines : list string) acc w :
  Forall (fun l => Py.strip l <> "") lines ->
  fst (prompt_loop lines acc w)
    = Raise {| exn_cls := EOFError; exn_str := "EOF when reading a line" |}.
Proof.
  intros Hlines. revert acc w.
  induction Hlines as [|l lines Hl _ IH]; intros acc w; [done|].
  rewrite prompt_loop_step by done. apply IH.
Qed.

(** X12. With no root configured and a standard input that ends before
    a blank line is read (or is closed from the start), the start-up
    block ends on the [EOFError] of [input]: nothing is scheduled and
    the observer is not started, even if paths were entered. *)
Theorem main_stops_at_end_of_input env files (input : list string) :
  Forall (fun l => Py.strip l <> "") input ->
  fst (main env [] (init_world files input))
    = Raise {| exn_cls := EOFError; exn_str := "EOF when reading a line" |} /\
  (ObserverStart ∉ calls (final (main env []) files input)) /\
  (forall p, Schedule p ∉ calls (final (main env []) files input)) /\
  watches (final (main env []) files input) = [].
Proof.
  intros Hin.
  set (w0 := add_log LvlInfo
               "Enter directories to monitor (one per line). Press Enter on a blank line to finish:"
               (init_world files input)).
  pose proof (prompt_loop_eof input [] w0 Hin) as Hr.
  destruct (prompt_loop_quiet input [] w0) as ([n Hn] & Hw & _).
  assert (Hmain : main env [] (init_world files input)
                  = (Raise {| exn_cls := EOFError;
                              exn_str := "EOF when reading a line" |},
                     snd (prompt_loop input [] w0))).
  { unfold main, collect_paths. cbn [is_empty]. unfold bind, prompt_paths.
    cbn [logger_info logger stdin add_log init_world]. fold w0.
    destruct (prompt_loop input [] w0) as [o w1]. cbn [fst snd] in *.
    by subst o. }
  unfold final. rewrite Hmain. cbn [fst snd]. cbn in Hn, Hw.
  split; [done|]. rewrite Hn, Hw. split; [|split; [|done]].
  - intros H. apply elem_of_replicate in H as [? _]. discriminate.
  - intros p H. apply elem_of_replicate in H as [? _]. discriminate.
Qed.

Lemma main_stops_at_end_of_input_witness :
  fst (main (env_well "/tmp/tmpk3v9.md") [] (init_world ∅ ["/srv/in"; "data"]))
    = Raise {| exn_cls := EOFError; exn_str := "EOF when reading a line" |} /\
  watches (final (main (env_well "/tmp/tmpk3v9.md") []) ∅ ["/srv/in"; "data"]) = [].
Proof.
  destruct (main_stops_at_end_of_input (env_well "/tmp/tmpk3v9.md") ∅
              ["/srv/in"; "data"]) as (Hr & _ & _ & Hw).
  - repeat constructor; discriminate.
  - exact (conj Hr Hw).
Defined.

(** ** The watcher from set-up to shutdown *)

Lemma schedule_all_app env (l1 l2 : list string) w :
  schedule_all env (l1 ++ l2) w
  = bind (schedule_all env l1) (fun _ => schedule_all env l2) w.
Proof.
  revert w. induction l1 as [|p l1 IH]; intros w; [done|].
  cbn [app schedule_all]. unfold bind at 1 3 4.
  destruct (try_except _ _ _ w) as [[[]|e|] w1]; [|done|done].
  rewrite IH. done.
Qed.

(** X13. With every watch failure an [OSError] and an observer that
    starts, [monitor_directory] schedules every root in order, starts
    the observer and waits: if the operator interrupts, it stops the
    observer, joins it and returns; if not, it never returns and the
    observer is never stopped. *)
Theorem monitor_directory_until_interrupt env paths w :
  (forall p e, p ∈ paths -> env_schedule env p = Some e -> is_OSError e = true) ->
  env_start env = None ->
  fst (monitor_directory env paths w)
    = (if env_interrupt env then Ret tt else Hang) /\
  calls (snd (monitor_directory env paths w))
    = calls w ++ map Schedule paths
      ++ ObserverStart
         :: (if env_interrupt env then [ObserverStop; ObserverJoin] else []).
Proof.
  intros Hos Hstart.
  destruct (schedule_all_spec env paths w Hos) as (w1 & Heq & Hc & _).
  assert (Hm : monitor_directory env paths w
               = if env_interrupt env
                 then (Ret tt, add_call ObserverJoin
                                 (add_call ObserverStop (add_call ObserverStart w1)))
                 else (Hang, add_call ObserverStart w1)).
  { unfold monitor_directory. unfold bind at 1. rewrite Heq.
    unfold observer_start, observer_stop, observer_join, keep_running,
      try_except, bind.
    cbn [record_call]. rewrite Hstart. cbn. by destruct (env_interrupt env). }
  rewrite Hm. destruct (env_interrupt env); cbn; rewrite Hc;
    by rewrite <- ?app_assoc.
Qed.

Lemma monitor_directory_until_interrupt_witness :
  fst (monitor_directory (env_well "/tmp/tmpk3v9.md") ["/srv/a"; "/srv/b"]
         (init_world ∅ [])) = Ret tt /\
  calls (snd (monitor_directory (env_well "/tmp/tmpk3v9.md") ["/srv/a"; "/srv/b"]
                (init_world ∅ [])))
    = [Schedule "/srv/a"; Schedule "/srv/b"; ObserverStart; ObserverStop;
       ObserverJoin].
Proof.
  destruct (monitor_directory_until_interrupt (env_well "/tmp/tmpk3v9.md")
              ["/srv/a"; "/srv/b"] (init_world ∅ [])) as (Hr & Hc).
  - intros p e _ He. discriminate He.
  - reflexivity.
  - exact (conj Hr Hc).
Defined.

(** X14. A watch failure that is no [OSError] is not handled: the
    exception leaves [monitor_directory] at that root, the roots after
    it are not scheduled and the observer is not started. *)
Theorem schedule_failure_other_than_oserror env (pre post : list string) p e w :
  (forall q e', q ∈ pre -> env_schedule env q = Some e' -> is_OSError e' = true) ->
  env_schedule env p = Some e ->
  is_OSError e = false ->
  fst (monitor_directory env (pre ++ p :: post) w) = Raise e /\
  calls (snd (monitor_directory env (pre ++ p :: post) w))
    = calls w ++ map Schedule (pre ++ [p]) /\
  watches (snd (monitor_directory env (pre ++ p :: post) w))
    = watches w ++ filter (fun q => env_schedule env q = None) pre.
Proof.
  intros Hpre Hp He.
  destruct (schedule_all_spec env pre w Hpre) as (w1 & Heq & Hc & Hw & _).
  assert (Hm : monitor_directory env (pre ++ p :: post) w
               = (Raise e, add_call (Schedule p) w1)).
  { unfold monitor_directory. unfold bind at 1. rewrite schedule_all_app.
    unfold bind at 1. rewrite Heq. cbn [schedule_all].
    unfold bind at 1. unfold try_except, observer_schedule, bind.
    cbn [record_call]. rewrite Hp. cbn. by rewrite He. }
  rewrite Hm. cbn. rewrite Hc, Hw, map_app. cbn. by rewrite <- app_assoc.
Qed.

Lemma schedule_failure_other_than_oserror_witness :
  let env := with_schedule
               (fun q => if String.eqb q "/srv/b"
                         then Some (other_error "unsupported file system")
                         else None)
               (env_well "/tmp/tmpk3v9.md") in
  fst (monitor_directory env ["/srv/a"; "/srv/b"; "/srv/c"] (init_world ∅ []))
    = Raise (other_error "unsupported file system") /\
  calls (snd (monitor_directory env ["/srv/a"; "/srv/b"; "/srv/c"] (init_world ∅ [])))
    = [Schedule "/srv/a"; Schedule "/srv/b"].
Proof.
  cbn zeta.
  match goal with |- fst (monitor_directory ?env _ ?w) = _ /\ _ =>
    destruct (schedule_failure_other_than_oserror env ["/srv/a"] ["/srv/c"]
                "/srv/b" (other_error "unsupported file system") w)
      as (Hr & Hc & _)
  end.
  - intros q e' Hq He'. apply list_elem_of_singleton in Hq. subst q.
    discriminate He'.
  - reflexivity.
  - reflexivity.
  - exact (conj Hr Hc).
Defined.

(** One turn of the loop over the roots. *)
Lemma schedule_all_cons env path rest w :
  schedule_all env (path :: rest) w
  = match env_schedule env path with
    | None =>
        schedule_all env rest
          (add_log LvlInfo ("Monitoring directory: " +:+ path +:+ " (recursive)")%string
             (add_watch path (add_call (Schedule path) w)))
    | Some e =>
        if is_OSError e
        then schedule_all env rest
               (add_log LvlError
                  ("Error monitoring directory " +:+ path +:+ ": " +:+ exn_str e)%string
                  (add_call (Schedule path) w))
        else (Raise e, add_call (Schedule path) w)
    end.
Proof.
  cbn [schedule_all]. unfold bind at 1.
  unfold try_except, observer_schedule, bind. cbn [record_call].
  destruct (env_schedule env path) as [e|]; cbn; [|done].
  by destruct (is_OSError e).
Qed.

(** [monitor_directory], step by step. *)
Lemma monitor_directory_stages env paths w :
  monitor_directory env paths w
  = let (o, w1) := schedule_all env paths w in
    match o with
    | Ret _ =>
        match env_start env with
        | Some e => (Raise e, add_call ObserverStart w1)
        | None =>
            if env_interrupt env
            then (Ret tt, add_call ObserverJoin
                            (add_call ObserverStop (add_call ObserverStart w1)))
            else (Hang, add_call ObserverStart w1)
        end
    | Raise e => (Raise e, w1)
    | Hang => (Hang, w1)
    end.
Proof.
  unfold monitor_directory. unfold bind at 1.
  destruct (schedule_all env paths w) as [[[]|e|] w1]; [|done|done].
  unfold observer_start, observer_stop, observer_join, keep_running,
    try_except, bind. cbn [record_call].
  destruct (env_start env); cbn; [done|]. by destruct (env_interrupt env).
Qed.

(** The start-up block, step by step. *)
Lemma main_stages env configured w :
  main env configured w
  = let (o1, w1) := collect_paths configured w in
    match o1 with
    | Ret paths_to_watch =>
        if is_empty paths_to_watch
        then (Raise {| exn_cls := SystemExit 1; exn_str := "1" |},
              add_log LvlError "No directories provided to monitor. Exiting." w1)
        else
          let (o2, w2) := monitor_directory env paths_to_watch w1 in
          match o2 with
          | Ret _ =>
              (Ret tt,
               add_call CleanupOldLogs
                 (add_log LvlInfo "Starting log cleanup process..." w2))
          | Raise e => (Raise e, w2)
          | Hang => (Hang, w2)
          end
    | Raise e => (Raise e, w1)
    | Hang => (Hang, w1)
    end.
Proof.
  unfold main. unfold bind at 1.
  destruct (collect_paths configured w) as [[ps|e|] w1]; [|done|done].
  destruct (is_empty ps); [done|]. unfold bind at 1. cbn [ret].
  unfold bind at 1.
  by destruct (monitor_directory env ps w1) as [[[]|e|] w2].
Qed.

(** Whatever the observer answers, [schedule_all] ends, only makes
    [schedule] calls and reads nothing. *)
Lemma schedule_all_general env paths :
  forall w,
    fst (schedule_all env paths w) <> Hang /\
    stdin (snd (schedule_all env paths w)) = stdin w /\
    exists l, calls (snd (schedule_all env paths w)) = calls w ++ map Schedule l.
Proof.
  induction paths as [|path rest IH]; intros w.
  - cbn. split; [done|]. split; [done|]. exists []. by rewrite app_nil_r.
  - rewrite schedule_all_cons.
    destruct (env_schedule env path) as [e|]; [destruct (is_OSError e)|].
    + match goal with |- context [schedule_all env rest ?w0] =>
        destruct (IH w0) as (Hh & Hs & [l Hl])
      end.
      split; [done|]. split; [by rewrite Hs|].
      exists (path :: l). rewrite Hl. cbn. by rewrite <- app_assoc.
    + split; [done|]. split; [done|]. by exists [path].
    + match goal with |- context [schedule_all env rest ?w0] =>
        destruct (IH w0) as (Hh & Hs & [l Hl])
      end.
      split; [done|]. split; [by rewrite Hs|].
      exists (path :: l). rewrite Hl. cbn. by rewrite <- app_assoc.
Qed.

(** Whatever the observer answers, [monitor_directory] reads nothing,
    only makes calls on the observer, and returns only after an
    interrupt, having stopped and joined the observer. *)
Lemma monitor_directory_general env paths w :
  stdin (snd (monitor_directory env paths w)) = stdin w /\
  exists l,
    calls (snd (monitor_directory env paths w)) = calls w ++ l /\
    Forall (fun c => watcher_call c = true) l /\
    (fst (monitor_directory env paths w) = Ret tt ->
     env_interrupt env = true /\ exists l', l = l' ++ [ObserverStop; ObserverJoin]).
Proof.
  destruct (schedule_all_general env paths w) as (Hh & Hs & [l Hl]).
  assert (Hf : Forall (fun c => watcher_call c = true) (map Schedule l))
    by (apply Forall_forall; intros c Hc; apply list_elem_of_fmap in Hc as [p [-> _]];
        reflexivity).
  rewrite monitor_directory_stages.
  destruct (schedule_all env paths w) as [[[]|e|] w1]; cbn [fst snd] in *;
    [| |done].
  - destruct (env_start env) as [e|]; [|destruct (env_interrupt env)];
      cbn [fst snd add_call calls stdin].
    + split; [done|]. exists (map Schedule l ++ [ObserverStart]).
      rewrite Hl, <- app_assoc. split; [done|]. split; [|done].
      apply Forall_app. split; [done|]. by repeat constructor.
    + split; [done|].
      exists ((map Schedule l ++ [ObserverStart]) ++ [ObserverStop; ObserverJoin]).
      rewrite Hl. split; [by rewrite <- !app_assoc|]. split; [|eauto].
      repeat (apply Forall_app; split); try done; by repeat constructor.
    + split; [done|]. exists (map Schedule l ++ [ObserverStart]).
      rewrite Hl, <- app_assoc. split; [done|]. split; [|done].
      apply Forall_app. split; [done|]. by repeat constructor.
  - split; [done|]. exists (map Schedule l). by rewrite Hl.
Qed.

(** The first part of the start-up block makes no call other than
    [input]. *)
Lemma collect_paths_quiet configured files input :
  exists n, calls (snd (collect_paths configured (init_world files input)))
            = replicate n (Input "Enter path: ").
Proof.
  unfold collect_paths. destruct (is_empty configured); [|by exists 0%nat].
  unfold bind, prompt_paths. cbn [logger_info logger].
  match goal with |- context [prompt_loop ?l ?a ?w0] =>
    destruct (prompt_loop_quiet l a w0) as ([n Hn] & _)
  end.
  cbn in Hn. eauto.
Qed.

(** X15. The sweep of old logs is reached only at shutdown: in every
    run of the start-up block in which [cleanup_old_logs] is called, the
    operator has interrupted the watcher, and the call comes right after
    the observer was stopped and joined. *)
Theorem cleanup_only_after_shutdown env configured files input :
  CleanupOldLogs ∈ calls (final (main env configured) files input) ->
  env_interrupt env = true /\
  exists l, calls (final (main env configured) files input)
            = l ++ [ObserverStop; ObserverJoin; CleanupOldLogs].
Proof.
  unfold final. rewrite main_stages.
  destruct (collect_paths_quiet configured files input) as [n Hn].
  destruct (collect_paths configured (init_world files input)) as [[ps|e|] w1];
    cbn [fst snd] in *.
  2,3: rewrite Hn; intros H; apply elem_of_replicate in H as [? _]; discriminate.
  destruct (is_empty ps).
  { cbn. rewrite Hn. intros H.
    apply elem_of_replicate in H as [? _]. discriminate. }
  destruct (monitor_directory_general env ps w1) as (_ & l & Hl & Hf & Hret).
  destruct (monitor_directory env ps w1) as [[[]|e|] w2]; cbn [fst snd] in *.
  - destruct (Hret eq_refl) as (Hi & l' & ->).
    cbn. intros _. split; [done|].
    exists (calls w1 ++ l'). rewrite Hl. by rewrite <- !app_assoc.
  - rewrite Hl, Hn. intros H. apply elem_of_app in H as [H|H].
    + apply elem_of_replicate in H as [? _]. discriminate.
    + rewrite Forall_forall in Hf. by apply Hf in H.
  - rewrite Hl, Hn. intros H. apply elem_of_app in H as [H|H].
    + apply elem_of_replicate in H as [? _]. discriminate.
    + rewrite Forall_forall in Hf. by apply Hf in H.
Qed.

Lemma cleanup_only_after_shutdown_witness :
  env_interrupt (env_well "/tmp/tmpk3v9.md") = true /\
  exists l, calls (final (main (env_well "/tmp/tmpk3v9.md") ["/srv/in"]) ∅ [])
            = l ++ [ObserverStop; ObserverJoin; CleanupOldLogs].
Proof.
  apply (cleanup_only_after_shutdown (env_well "/tmp/tmpk3v9.md") ["/srv/in"] ∅ []).
  by_evaluation.
Defined.

(** X16. With roots configured the start-up block does not prompt:
    whatever the collaborators answer, [input] is never called and
    standard input is left unread. *)
Theorem configured_roots_skip_prompt env configured files input :
  configured <> [] ->
  stdin (final (main env configured) files input) = input /\
  forall prompt, Input prompt ∉ calls (final (main env configured) files input).
Proof.
  intros Hne. destruct configured as [|c cs]; [done|].
  unfold final. rewrite main_stages. unfold collect_paths. cbn [is_empty ret].
  destruct (monitor_directory_general env (c :: cs) (init_world files input))
    as (Hs & l & Hl & Hf & _).
  destruct (monitor_directory env (c :: cs) (init_world files input))
    as [[[]|e|] w2]; cbn [fst snd] in *.
  - cbn. split; [done|].
    intros prompt H. rewrite Hl in H. cbn in H.
    apply elem_of_app in H as [H|H].
    + rewrite Forall_forall in Hf. by apply Hf in H.
    + apply list_elem_of_singleton in H. discriminate.
  - split; [done|]. intros prompt H. rewrite Hl in H. cbn in H.
    rewrite Forall_forall in Hf. by apply Hf in H.
  - split; [done|]. intros prompt H. rewrite Hl in H. cbn in H.
    rewrite Forall_forall in Hf. by apply Hf in H.
Qed.

Lemma configured_roots_skip_prompt_witness :
  stdin (final (main (env_well "/tmp/tmpk3v9.md") ["/srv/in"]) ∅ ["/srv/other"; ""])
  = ["/srv/other"; ""].
Proof.
  apply (configured_roots_skip_prompt (env_well "/tmp/tmpk3v9.md") ["/srv/in"] ∅
           ["/srv/other"; ""]).
  discriminate.
Defined.

(** ** The sweep of the log directory *)

Section SweepProperties.

Variable time : Type.
Variable time_sub : time -> Z -> time.
Variable time_ltb : time -> time -> bool.
Variable env : Env.
Variable dirs : Retention.LogDir time.

#[local] Abbreviation sweep_file := (Retention.sweep_file time time_ltb env dirs).
#[local] Abbreviation sweep := (Retention.sweep time time_ltb env dirs).
#[local] Abbreviation expired := (Retention.expired time time_ltb dirs).
#[local] Abbreviation sweep_logs :=
  (Retention.cleanup_old_logs time time_sub time_ltb env dirs).

(** What the loop does with one directory entry. *)
Lemma sweep_file_cases directory cutoff filename w :
  let p := OsPath.join directory filename in
  sweep_file directory cutoff filename w
  = if Py.endswith filename ".log" then
      match Retention.ld_getmtime time dirs p with
      | inr e => (Raise e, w)
      | inl t =>
          if time_ltb t cutoff then
            match env_remove env p with
            | None =>
                (Ret tt,
                 add_log LvlInfo ("Deleted old log file: " +:+ p)%string
                   (set_fs (fun s => s ∖ {[p]}) (add_call (Remove p) w)))
            | Some e =>
                if is_Exception e
                then (Ret tt,
                      add_log LvlError
                        ("Failed to delete log file " +:+ p +:+ ": " +:+ exn_str e)%string
                        (add_call (Remove p) w))
                else (Raise e, add_call (Remove p) w)
            end
          else (Ret tt, w)
      end
    else (Ret tt, w).
Proof.
  cbn zeta. unfold Retention.sweep_file, Retention.os_getmtime, os_remove,
    try_except, bind.
  destruct (Py.endswith filename ".log"); [|done].
  destruct (Retention.ld_getmtime _ _ _) as [t|e]; cbn; [|done].
  destruct (time_ltb t cutoff); [|done]. cbn [record_call].
  destruct (env_remove env _) as [e|]; cbn; [|done].
  by destruct (is_Exception e).
Qed.

Lemma sweep_cons directory cutoff filename rest w :
  sweep directory cutoff (filename :: rest) w
  = match sweep_file directory cutoff filename w with
    | (Ret _, w1) => sweep directory cutoff rest w1
    | (Raise e, w1) => (Raise e, w1)
    | (Hang, w1) => (Hang, w1)
    end.
Proof. reflexivity. Qed.

(** The sweep with a readable directory and deletions that fail, if they
    fail, with an [Exception]. *)
Lemma sweep_spec directory cutoff (names : list string) :
  forall w,
    (forall f, f ∈ names -> Py.endswith f ".log" = true ->
       exists t, Retention.ld_getmtime time dirs (OsPath.join directory f) = inl t) ->
    (forall p e, env_remove env p = Some e -> is_Exception e = true) ->
    fst (sweep directory cutoff names w) = Ret tt /\
    calls (snd (sweep directory cutoff names w))
      = calls w ++ map (fun f => Remove (OsPath.join directory f))
                     (filter (fun f => expired directory cutoff f = true) names) /\
    (exists ll, log (snd (sweep directory cutoff names w)) = log w ++ ll) /\
    (forall f e, f ∈ names -> expired directory cutoff f = true ->
       env_remove env (OsPath.join directory f) = Some e ->
       (LvlError, ("Failed to delete log file " +:+ OsPath.join directory f +:+ ": "
                   +:+ exn_str e)%string)
         ∈ log (snd (sweep directory cutoff names w))).
Proof.
  induction names as [|f rest IH]; intros w Hmt Hrm.
  - cbn. rewrite app_nil_r. do 2 (split; [done|]).
    split; [exists []; by rewrite app_nil_r|].
    intros f e Hf. by apply elem_of_nil in Hf.
  - assert (Hmt' : forall f0, f0 ∈ rest -> Py.endswith f0 ".log" = true ->
               exists t, Retention.ld_getmtime time dirs (OsPath.join directory f0) = inl t)
      by (intros f0 Hf0; apply Hmt; by apply list_elem_of_further).
    rewrite sweep_cons, sweep_file_cases. cbn zeta.
    unfold Retention.expired in *.
    destruct (Py.endswith f ".log") eqn:Hlog.
    2: { destruct (IH w Hmt' Hrm) as (Hr & Hc & Hl & He).
         rewrite filter_cons_False by (rewrite Hlog; cbn; done).
         do 3 (split; [done|]). intros f0 e Hf0 Hexp Hre.
         apply elem_of_cons in Hf0 as [->|Hf0]; [|by eapply He].
         rewrite Hlog in Hexp. discriminate. }
    destruct (Hmt f (list_elem_of_here _ _) Hlog) as [t Ht]. rewrite Ht.
    destruct (time_ltb t cutoff) eqn:Hold.
    2: { destruct (IH w Hmt' Hrm) as (Hr & Hc & Hl & He).
         rewrite filter_cons_False by (rewrite Hlog, Ht, Hold; cbn; done).
         do 3 (split; [done|]). intros f0 e Hf0 Hexp Hre.
         apply elem_of_cons in Hf0 as [->|Hf0]; [|by eapply He].
         rewrite Hlog, Ht, Hold in Hexp. discriminate. }
    rewrite filter_cons_True by (rewrite Hlog, Ht, Hold; cbn; done).
    destruct (env_remove env (OsPath.join directory f)) as [e|] eqn:Hre.
    + rewrite (Hrm _ _ Hre).
      match goal with |- context [sweep directory cutoff rest ?w0] =>
        destruct (IH w0 Hmt' Hrm) as (Hr & Hc & [ll Hl] & He)
      end.
      split; [done|]. split; [rewrite Hc; cbn; by rewrite <- app_assoc|].
      split; [rewrite Hl; cbn; rewrite <- app_assoc; eauto|].
      intros f0 e0 Hf0 Hexp Hre0.
      apply elem_of_cons in Hf0 as [->|Hf0]; [|by eapply He].
      rewrite Hre in Hre0. injection Hre0 as <-. rewrite Hl. cbn.
      rewrite !elem_of_app, list_elem_of_singleton. auto.
    + match goal with |- context [sweep directory cutoff rest ?w0] =>
        destruct (IH w0 Hmt' Hrm) as (Hr & Hc & [ll Hl] & He)
      end.
      split; [done|]. split; [rewrite Hc; cbn; by rewrite <- app_assoc|].
      split; [rewrite Hl; cbn; rewrite <- app_assoc; eauto|].
      intros f0 e0 Hf0 Hexp Hre0.
      apply elem_of_cons in Hf0 as [->|Hf0]; [|by eapply He].
      rewrite Hre in Hre0. discriminate.
Qed.

(** X17. With a directory that can be listed, log files whose time
    stamp can be read, and deletions that fail, if they fail, with an
    [Exception]: the sweep returns, and it has called [os.remove] once,
    in the order of the listing, on every entry whose name ends in
    [.log] and whose time stamp is before the cutoff, and on nothing
    else; a deletion that failed is logged and the sweep went on. *)
Theorem sweep_removes_expired_logs directory days (names : list string) w :
  let cutoff := time_sub (Retention.ld_now time dirs) (days * 86400) in
  Retention.ld_listdir time dirs directory = inl names ->
  (forall f, f ∈ names -> Py.endswith f ".log" = true ->
     exists t, Retention.ld_getmtime time dirs (OsPath.join directory f) = inl t) ->
  (forall p e, env_remove env p = Some e -> is_Exception e = true) ->
  fst (sweep_logs directory days w) = Ret tt /\
  calls (snd (sweep_logs directory days w))
    = calls w ++ map (fun f => Remove (OsPath.join directory f))
                   (filter (fun f => expired directory cutoff f = true) names) /\
  (forall f e, f ∈ names -> expired directory cutoff f = true ->
     env_remove env (OsPath.join directory f) = Some e ->
     (LvlError, ("Failed to delete log file " +:+ OsPath.join directory f +:+ ": "
                 +:+ exn_str e)%string)
       ∈ log (snd (sweep_logs directory days w))).
Proof.
  cbn zeta. intros Hls Hmt Hrm.
  unfold Retention.cleanup_old_logs, Retention.time_time, Retention.os_listdir.
  unfold bind at 1 2 3 4 5 6 7 8 9. cbn [logger_info logger ret]. rewrite Hls.
  cbn [ret].
  match goal with |- context [sweep directory ?c names ?w0] =>
    destruct (sweep_spec directory c names w0 Hmt Hrm) as (Hr & Hc & _ & He)
  end.
  split; [done|]. split; [done|]. exact He.
Qed.



Lemma sweep_app directory cutoff (l1 l2 : list string) w :
  sweep directory cutoff (l1 ++ l2) w
  = bind (sweep directory cutoff l1) (fun _ => sweep directory cutoff l2) w.
Proof.
  revert w. induction l1 as [|f l1 IH]; intros w; [done|].
  cbn [app]. rewrite sweep_cons. unfold bind at 1.
  rewrite sweep_cons.
  destruct (sweep_file directory cutoff f w) as [[[]|e|] w1]; [|done|done].
  by rewrite IH.
Qed.

(** X19. [os.path.getmtime] is called outside the [try]: when it raises
    on a log file (the file vanished after the listing), the exception
    leaves the sweep there, and the entries after that file are neither
    looked at nor removed. *)
Theorem sweep_stops_at_unreadable_log directory days (pre post : list string) f e w :
  let cutoff := time_sub (Retention.ld_now time dirs) (days * 86400) in
  Retention.ld_listdir time dirs directory = inl (pre ++ f :: post) ->
  (forall f0, f0 ∈ pre -> Py.endswith f0 ".log" = true ->
     exists t, Retention.ld_getmtime time dirs (OsPath.join directory f0) = inl t) ->
  (forall p e0, env_remove env p = Some e0 -> is_Exception e0 = true) ->
  Py.endswith f ".log" = true ->
  Retention.ld_getmtime time dirs (OsPath.join directory f) = inr e ->
  fst (sweep_logs directory days w) = Raise e /\
  calls (snd (sweep_logs directory days w))
    = calls w ++ map (fun f0 => Remove (OsPath.join directory f0))
                   (filter (fun f0 => expired directory cutoff f0 = true) pre).
Proof.
  cbn zeta. intros Hls Hmt Hrm Hlog Hf.
  unfold Retention.cleanup_old_logs, Retention.time_time, Retention.os_listdir.
  unfold bind at 1 2 3 4 5 6. cbn [logger_info logger ret]. rewrite Hls.
  cbn [ret]. rewrite sweep_app. unfold bind.
  match goal with |- context [sweep directory ?c pre ?w0] =>
    destruct (sweep_spec directory c pre w0 Hmt Hrm) as (Hr & Hc & _);
    destruct (sweep directory c pre w0) as [o w1]
  end.
  cbn [fst snd] in *. subst o.
  rewrite sweep_cons, sweep_file_cases. cbn zeta. rewrite Hlog, Hf.
  by cbn.
Qed.

End SweepProperties.

Lemma sweep_removes_expired_logs_witness :
  let run := Retention.cleanup_old_logs Z Z.sub Z.ltb (env_well "/tmp/tmpk3v9.md")
               (sample_logdir "") "/opt/monitor" 60 (init_world ∅ []) in
  fst run = Ret tt /\ calls (snd run) = [Remove "/opt/monitor/old.log"].
Proof.
  cbn zeta.
  destruct (sweep_removes_expired_logs Z Z.sub Z.ltb (env_well "/tmp/tmpk3v9.md")
              (sample_logdir "") "/opt/monitor" 60
              ["monitor.log"; "monitor.log.2024-01-15"; "old.log"; "monitor.py"]
              (init_world ∅ [])) as (Hr & Hc & _).
  - reflexivity.
  - intros f Hf _.
    repeat (apply elem_of_cons in Hf as [->|Hf]; [by eexists|]).
    by apply elem_of_nil in Hf.
  - intros p e He. discriminate He.
  - split; [exact Hr|]. rewrite Hc. reflexivity.
Defined.


Lemma sweep_stops_at_unreadable_log_witness :
  let run := Retention.cleanup_old_logs Z Z.sub Z.ltb (env_well "/tmp/tmpk3v9.md")
               (sample_logdir "/opt/monitor/monitor.log") "/opt/monitor" 60
               (init_world ∅ []) in
  fst run = Raise (os_error "[Errno 2] No such file or directory") /\
  calls (snd run) = [].
Proof.
  cbn zeta.
  destruct (sweep_stops_at_unreadable_log Z Z.sub Z.ltb (env_well "/tmp/tmpk3v9.md")
              (sample_logdir "/opt/monitor/monitor.log") "/opt/monitor" 60
              [] ["monitor.log.2024-01-15"; "old.log"; "monitor.py"]
              "monitor.log" (os_error "[Errno 2] No such file or directory")
              (init_world ∅ [])) as (Hr & Hc).
  - reflexivity.
  - intros f0 Hf0. by apply elem_of_nil in Hf0.
  - intros p e He. discriminate He.
  - reflexivity.
  - reflexivity.
  - exact (conj Hr Hc).
Defined.

(** ** The output directory that cannot be created *)


